(** * Bug-report lifecycle of [bug_reports/bug_report.py]

    A shallow embedding of the handlers that read and write the
    [bug_reports] table, and the properties of the lifecycle, the
    assignment workflow and the listings that follow from the code.

    Conventions of the embedding.
    - The SQLite table is a list of rows in rowid (insertion) order; a full
      scan visits the rows in that order.
    - [UPDATE ... WHERE bug_id = ?] rewrites every row whose key matches and
      leaves the other rows where they are.
    - A Python [str] is a [string]; a character is a code point below 256.
    - The ambient services of the framework ([atlantis.get_caller],
      [atlantis.get_client_id], the clock, [uuid.uuid4]) are read from an
      explicit environment record.
    - A handler returns the table it leaves behind together with what it
      reports to the caller. *)

From Stdlib Require Import List String Ascii ZArith Bool Lia.
From Stdlib Require Import Sorted Permutation.
Import ListNotations.

Local Open Scope string_scope.
Local Open Scope Z_scope.

(** ** Python and JavaScript string primitives *)

Module Py.

(** Truthiness of a [str]: only the empty string is falsy. *)
Definition truthy (s : string) : bool :=
  match s with EmptyString => false | String _ _ => true end.

(** Truthiness of an [Optional[str]]: [None] and [""] are falsy. *)
Definition truthy_opt (o : option string) : bool :=
  match o with None => false | Some s => truthy s end.

(** [a or d] where [a] is an [Optional[str]] and [d] a [str]. *)
Definition or_else (a : option string) (d : string) : string :=
  match a with
  | Some s => if truthy s then s else d
  | None => d
  end.

(** [a or b] where both are [Optional[str]]. *)
Definition or_opt (a b : option string) : option string :=
  if truthy_opt a then a else b.

(** [str.isspace] on one character, for code points below 256:
    TAB, LF, VT, FF, CR, FS, GS, RS, US, SPACE, NEL and NBSP. *)
Definition isspace (c : ascii) : bool :=
  let n := nat_of_ascii c in
  ((9 <=? n) && (n <=? 13))%nat || ((28 <=? n) && (n <=? 32))%nat
  || (n =? 133)%nat || (n =? 160)%nat.

Fixpoint lstrip_with (sp : ascii -> bool) (s : string) : string :=
  match s with
  | EmptyString => EmptyString
  | String c rest => if sp c then lstrip_with sp rest else s
  end.

(** Drops the trailing characters satisfying [sp]. *)
Fixpoint rstrip_with (sp : ascii -> bool) (s : string) : string :=
  match s with
  | EmptyString => EmptyString
  | String c rest =>
      match rstrip_with sp rest with
      | EmptyString => if sp c then EmptyString else String c EmptyString
      | r => String c r
      end
  end.

Definition strip_with (sp : ascii -> bool) (s : string) : string :=
  rstrip_with sp (lstrip_with sp s).

(** [s.strip()] *)
Definition strip (s : string) : string := strip_with isspace s.

(** [s.split(sep)] for a one-character separator: never returns the
    empty list, and [''.split(',')] is [['']]. *)
Fixpoint split (sep : ascii) (s : string) : list string :=
  match s with
  | EmptyString => [EmptyString]
  | String c rest =>
      if Ascii.eqb c sep then EmptyString :: split sep rest
      else match split sep rest with
           | [] => [String c EmptyString]
           | w :: ws => String c w :: ws
           end
  end.

(** [str.lower] on one character, for code points below 256. *)
Definition lower_char (c : ascii) : ascii :=
  let n := nat_of_ascii c in
  if ((65 <=? n) && (n <=? 90))%nat
     || ((192 <=? n) && (n <=? 222) && negb (n =? 215))%nat
  then ascii_of_nat (n + 32) else c.

Fixpoint lower (s : string) : string :=
  match s with
  | EmptyString => EmptyString
  | String c rest => String (lower_char c) (lower rest)
  end.

(** [s[:n]] *)
Fixpoint take (n : nat) (s : string) : string :=
  match n, s with
  | O, _ => EmptyString
  | _, EmptyString => EmptyString
  | S k, String c rest => String c (take k rest)
  end.

(** [str(x)] inside an f-string for an [Optional[str]]. *)
Definition show_opt (o : option string) : string :=
  match o with None => "None" | Some s => s end.

End Py.

Module Js.

(** White space removed by [String.prototype.trim], for code points
    below 256: TAB, LF, VT, FF, CR, SPACE and NBSP. *)
Definition is_white (c : ascii) : bool :=
  let n := nat_of_ascii c in
  ((9 <=? n) && (n <=? 13))%nat || (n =? 32)%nat || (n =? 160)%nat.

Definition trim (s : string) : string := Py.strip_with is_white s.

(** [x || null] on a string: the empty string becomes [null]. *)
Definition or_null (s : string) : option string :=
  if Py.truthy s then Some s else None.

End Js.

(** ** The [bug_reports] table *)

(** One row; the columns are those of [CREATE TABLE bug_reports]. A [TEXT]
    column that may hold [NULL] is an [option]; [status] is only ever
    written from a literal or from a [str] argument, so it is a [string].
    Timestamps are seconds. *)
Record BugReport := mkBug {
  bug_id : string;
  user_id : string;
  username : string;
  session_id : option string;
  title : string;
  description : string;
  reproduction_steps : option string;
  severity : option string;
  category : option string;
  system_info : option string;
  log_context : option string;
  screenshot_path : option string;
  screenshot_name : option string;
  status : string;
  assigned_to : option string;
  assigned_at : option Z;
  progress_notes : option string;
  reported_at : Z;
  updated_at : Z
}.

Definition Table := list BugReport.

(** Column assignments of the [SET] clauses. *)
Definition set_severity (v : option string) (r : BugReport) : BugReport :=
  mkBug r.(bug_id) r.(user_id) r.(username) r.(session_id) r.(title)
        r.(description) r.(reproduction_steps) v r.(category)
        r.(system_info) r.(log_context) r.(screenshot_path)
        r.(screenshot_name) r.(status) r.(assigned_to) r.(assigned_at)
        r.(progress_notes) r.(reported_at) r.(updated_at).

Definition set_category (v : option string) (r : BugReport) : BugReport :=
  mkBug r.(bug_id) r.(user_id) r.(username) r.(session_id) r.(title)
        r.(description) r.(reproduction_steps) r.(severity) v
        r.(system_info) r.(log_context) r.(screenshot_path)
        r.(screenshot_name) r.(status) r.(assigned_to) r.(assigned_at)
        r.(progress_notes) r.(reported_at) r.(updated_at).

Definition set_status (v : string) (r : BugReport) : BugReport :=
  mkBug r.(bug_id) r.(user_id) r.(username) r.(session_id) r.(title)
        r.(description) r.(reproduction_steps) r.(severity) r.(category)
        r.(system_info) r.(log_context) r.(screenshot_path)
        r.(screenshot_name) v r.(assigned_to) r.(assigned_at)
        r.(progress_notes) r.(reported_at) r.(updated_at).

Definition set_assigned_to (v : option string) (r : BugReport) : BugReport :=
  mkBug r.(bug_id) r.(user_id) r.(username) r.(session_id) r.(title)
        r.(description) r.(reproduction_steps) r.(severity) r.(category)
        r.(system_info) r.(log_context) r.(screenshot_path)
        r.(screenshot_name) r.(status) v r.(assigned_at)
        r.(progress_notes) r.(reported_at) r.(updated_at).

Definition set_assigned_at (v : option Z) (r : BugReport) : BugReport :=
  mkBug r.(bug_id) r.(user_id) r.(username) r.(session_id) r.(title)
        r.(description) r.(reproduction_steps) r.(severity) r.(category)
        r.(system_info) r.(log_context) r.(screenshot_path)
        r.(screenshot_name) r.(status) r.(assigned_to) v
        r.(progress_notes) r.(reported_at) r.(updated_at).

Definition set_progress_notes (v : option string) (r : BugReport) : BugReport :=
  mkBug r.(bug_id) r.(user_id) r.(username) r.(session_id) r.(title)
        r.(description) r.(reproduction_steps) r.(severity) r.(category)
        r.(system_info) r.(log_context) r.(screenshot_path)
        r.(screenshot_name) r.(status) r.(assigned_to) r.(assigned_at)
        v r.(reported_at) r.(updated_at).

Definition set_updated_at (v : Z) (r : BugReport) : BugReport :=
  mkBug r.(bug_id) r.(user_id) r.(username) r.(session_id) r.(title)
        r.(description) r.(reproduction_steps) r.(severity) r.(category)
        r.(system_info) r.(log_context) r.(screenshot_path)
        r.(screenshot_name) r.(status) r.(assigned_to) r.(assigned_at)
        r.(progress_notes) r.(reported_at) v.

(** ** The SQL fragments the handlers use *)

Module Sql.

(** [UPDATE bug_reports SET ... WHERE bug_id = ?] *)
Definition update_where_id (id : string) (f : BugReport -> BugReport)
    (db : Table) : Table :=
  map (fun r => if String.eqb r.(bug_id) id then f r else r) db.

(** [SELECT ... WHERE bug_id = ?] followed by [fetchone()]. *)
Definition fetchone (id : string) (db : Table) : option BugReport :=
  find (fun r => String.eqb r.(bug_id) id) db.

(** [status NOT IN (a, b)] *)
Definition not_in2 (a b s : string) : bool :=
  negb (String.eqb s a) && negb (String.eqb s b).

(** [col = ?] on a nullable column: [NULL = x] is not true. *)
Definition col_eq (c : option string) (v : string) : bool :=
  match c with Some x => String.eqb x v | None => false end.

(** [col = ?] with a parameter that may itself be [NULL]. *)
Definition col_eq_param (c p : option string) : bool :=
  match p with Some v => col_eq c v | None => false end.

(** [LIMIT ?], once the parameter is bound: a negative limit means no
limit. This is the query of a call whose limit [int64] accepts. *)
Definition limit {A : Type} (n : Z) (l : list A) : list A :=
  if n <? 0 then l else firstn (Z.to_nat n) l.

(** A Python [int] given for a [?] is stored as an SQLite INTEGER, which is
signed and 64 bits wide. For a number outside that range [db.execute]
raises [OverflowError] before the query runs, and the handler shows
nothing. *)
Definition int64 (n : Z) : bool := (- 2 ^ 63 <=? n) && (n <? 2 ^ 63).

(** [CASE severity WHEN 'Critical' THEN 1 ... ELSE 5 END] *)
Definition severity_rank (s : option string) : Z :=
  match s with
  | Some v =>
      if String.eqb v "Critical" then 1
      else if String.eqb v "High" then 2
      else if String.eqb v "Medium" then 3
      else if String.eqb v "Low" then 4
      else 5
  | None => 5
  end.

(** [ORDER BY]: the rows come out sorted by the comparison [leb]. SQL
leaves the order of rows that tie open; SQLite emits them in the order
of the scan, which is what this insertion sort does. [leb a b] reads:
[a] may stand before [b]. *)
Section OrderBy.
Context {A : Type} (leb : A -> A -> bool).

Fixpoint insert (x : A) (l : list A) : list A :=
  match l with
  | [] => [x]
  | y :: ys => if leb x y then x :: l else y :: insert x ys
  end.

Fixpoint order_by (l : list A) : list A :=
  match l with
  | [] => []
  | x :: xs => insert x (order_by xs)
  end.
End OrderBy.

(** [k DESC] on a timestamp that may be [NULL]: [NULL] sorts last. *)
Definition desc_leb (a b : option Z) : bool :=
  match a, b with
  | _, None => true
  | None, Some _ => false
  | Some x, Some y => y <=? x
  end.

End Sql.

(** ** Ambient services *)

Record Env := mkEnv {
  caller : option string;        (* atlantis.get_caller() *)
  client : option string;        (* atlantis.get_client_id() *)
  session : option string;       (* atlantis.get_session_id() *)
  now : Z;                       (* CURRENT_TIMESTAMP *)
  stamp : string;                (* datetime.now().strftime(...) *)
  uuid_user : string;            (* the uuid4 drawn for user_id *)
  uuid_bug : string;             (* the uuid4 drawn for bug_id *)
  platform_info : string;        (* the system_info f-string *)
  screenshot_saved : option string  (* path when the file was written *)
}.

(** [atlantis.get_caller() or client_id or "unknown"] *)
Definition acting_user (e : Env) : string :=
  Py.or_else (Py.or_opt e.(caller) e.(client)) "unknown".

(** What a handler hands back: a value, or the exception it lets escape. *)
Inductive Outcome (A : Type) : Type :=
| Done (a : A)
| Raised (msg : string).
Arguments Done {A} a.
Arguments Raised {A} msg.

(** ** Reporting and triage handlers *)

(** [submit_bug_report]: inserts one row with status ['New'] and reports a
    field/value table. The key is a fresh uuid4; a clash with an existing
    key would violate the primary key and the exception escapes. *)
Definition submit_bug_report (e : Env) (db : Table)
    (title description : string)
    (reproduction_steps log_context screenshot_data screenshot_name
       : option string)
    : Table * Outcome (list (string * string)) :=
  let username := Py.or_else e.(caller) "unknown" in
  let user_id := Py.or_else e.(client) e.(uuid_user) in
  let session_id := Py.or_else e.(session) "unknown" in
  let system_info := e.(platform_info) in
  let bug_id := e.(uuid_bug) in
  let screenshot_path :=
    if Py.truthy_opt screenshot_data && Py.truthy_opt screenshot_name
    then e.(screenshot_saved) else None in
  match Sql.fetchone bug_id db with
  | Some _ => (db, Raised "UNIQUE constraint failed: bug_reports.bug_id")
  | None =>
      let row :=
        mkBug bug_id user_id username (Some session_id) title description
              reproduction_steps None None (Some system_info) log_context
              screenshot_path screenshot_name "New" None None None
              e.(now) e.(now) in
      let result :=
        ([("Bug ID", bug_id); ("Title", title); ("Session", session_id);
          ("System", system_info)]
         ++ (if Py.truthy_opt screenshot_path
             then [("Screenshot", Py.show_opt screenshot_name)] else []))%list
      in
      ((db ++ [row])%list, Done result)
  end.

(** One entry of the list that [list_bug_reports] displays. *)
Record OpenRow := mkOpenRow {
  o_bug_id : string;
  o_title : string;
  o_severity : string;
  o_category : string;
  o_status : string;
  o_reported_by : string;
  o_reported_at : Z;
  o_has_screenshot : bool
}.

(** [if x and x.lower() == "none": x = None] *)
Definition none_word (x : option string) : option string :=
  match x with
  | Some s =>
      if Py.truthy s && String.eqb (Py.lower s) "none" then None else x
  | None => None
  end.

(** The [WHERE] clause that [list_bug_reports] builds. *)
Definition list_where (status_filter severity_filter : option string)
    (r : BugReport) : bool :=
  Sql.not_in2 "Dismissed" "Resolved" r.(status)
  && (if Py.truthy_opt status_filter
      then String.eqb r.(status) (Py.show_opt status_filter) else true)
  && (if Py.truthy_opt severity_filter
      then Sql.col_eq r.(severity) (Py.show_opt severity_filter)
      else true).

(** [ORDER BY reported_at DESC] *)
Definition reported_desc (a b : BugReport) : bool :=
  b.(reported_at) <=? a.(reported_at).

(** [list_bug_reports]; the arguments [status] and [severity] of the
    source are [status_filter] and [severity_filter] here. *)
Definition list_bug_reports (db : Table)
    (status_filter severity_filter : option string) (limit : Z)
    : list OpenRow :=
  let status_filter := none_word status_filter in
  let severity_filter := none_word severity_filter in
  let rows :=
    Sql.limit limit
      (Sql.order_by reported_desc
         (filter (list_where status_filter severity_filter) db)) in
  map (fun r =>
         mkOpenRow r.(bug_id) r.(title)
           (Py.or_else r.(severity) "Unassigned")
           (Py.or_else r.(category) "Uncategorized")
           r.(status) r.(username) r.(reported_at)
           (Py.truthy_opt r.(screenshot_name)))
      rows.

(** [if not x: x = None] *)
Definition blank_to_null (x : string) : option string :=
  if Py.truthy x then Some x else None.

(** [update_bug_severity]; the string is the line sent to the user. *)
Definition update_bug_severity (e : Env) (db : Table)
    (bug_id severity : string) : Table * string :=
  let severity := blank_to_null severity in
  (Sql.update_where_id bug_id
     (fun r => set_updated_at e.(now) (set_severity severity r)) db,
   "✅ Bug " ++ bug_id ++ " severity updated to " ++ Py.show_opt severity).

Definition update_bug_category (e : Env) (db : Table)
    (bug_id category : string) : Table * string :=
  let category := blank_to_null category in
  (Sql.update_where_id bug_id
     (fun r => set_updated_at e.(now) (set_category category r)) db,
   "✅ Bug " ++ bug_id ++ " category updated to " ++ Py.show_opt category).

Definition update_bug_status (e : Env) (db : Table)
    (bug_id status : string) : Table * string :=
  (Sql.update_where_id bug_id
     (fun r => set_updated_at e.(now) (set_status status r)) db,
   "✅ Bug " ++ bug_id ++ " status updated to " ++ status).

(** ** Assignment and to-do handlers *)

(** Rows offered by [assign_bugs_interactive], in display order. *)
Definition picker_where (r : BugReport) : bool :=
  (String.eqb r.(status) "New" || String.eqb r.(status) "Triaged")
  && match r.(assigned_to) with
     | None => true
     | Some a => String.eqb a ""
     end.

Definition picker_order (a b : BugReport) : bool :=
  let ra := Sql.severity_rank a.(severity) in
  let rb := Sql.severity_rank b.(severity) in
  (ra <? rb) || ((ra =? rb) && (b.(reported_at) <=? a.(reported_at))).

Definition assign_bugs_interactive (db : Table) : list BugReport :=
  Sql.order_by picker_order (filter picker_where db).

(** [[b.strip() for b in bug_ids.split(',') if b.strip()]] *)
Definition bug_id_list (bug_ids : string) : list string :=
  map Py.strip
    (filter (fun b => Py.truthy (Py.strip b)) (Py.split "," bug_ids)).

(** The [SET] clause of the assignment. *)
Definition assign_row (e : Env) (who : string) (r : BugReport) : BugReport :=
  set_updated_at e.(now)
    (set_status "Assigned"
       (set_assigned_at (Some e.(now)) (set_assigned_to (Some who) r))).

(** The loop of [_assign_bugs_to_me]: the table and the running count. *)
Fixpoint assign_loop (e : Env) (who : string) (ids : list string)
    (db : Table) (assigned_count : Z) : Table * Z :=
  match ids with
  | [] => (db, assigned_count)
  | id :: rest =>
      assign_loop e who rest
        (Sql.update_where_id id (assign_row e who) db) (assigned_count + 1)
  end.

(** [_assign_bugs_to_me]: reports the assignee and the count, as shown in
    the "To-Do List Created" table. *)
Definition _assign_bugs_to_me (e : Env) (db : Table) (bug_ids : string)
    : Table * (string * Z) :=
  let who := acting_user e in
  let '(db', n) := assign_loop e who (bug_id_list bug_ids) db 0 in
  (db', (who, n)).

(** Rows of [my_assigned_bugs_table], in display order. *)
Definition mine_where (e : Env) (r : BugReport) : bool :=
  (Sql.col_eq r.(assigned_to) (acting_user e)
   || Sql.col_eq_param r.(assigned_to) e.(client))
  && Sql.not_in2 "Resolved" "Dismissed" r.(status).

Definition todo_order (a b : BugReport) : bool :=
  let ra := Sql.severity_rank a.(severity) in
  let rb := Sql.severity_rank b.(severity) in
  (ra <? rb) || ((ra =? rb) && Sql.desc_leb a.(assigned_at) b.(assigned_at)).

Definition my_assigned_bugs_table (e : Env) (db : Table) : list BugReport :=
  Sql.order_by todo_order (filter (mine_where e) db).

(** ** Progress, testing and resolution handlers *)

(** The line feed of the Python string literals. *)
Definition nl : string := String (ascii_of_nat 10) EmptyString.

(** One element of the JSON array given to [_save_bug_progress], after
    [json.loads]. [p_notes = None] stands for an object without the key
    ["notes"], which [update.get('notes', '')] reads as the empty string. *)
Record ProgressUpdate := mkProgress {
  p_bug_id : string;
  p_status : string;
  p_notes : option string
}.

(** The [SET] clause of [_save_bug_progress]. *)
Definition progress_row (e : Env) (u : ProgressUpdate) (r : BugReport)
    : BugReport :=
  let notes := match u.(p_notes) with Some n => n | None => "" end in
  set_updated_at e.(now)
    (set_progress_notes (Some notes) (set_status u.(p_status) r)).

Fixpoint save_loop (e : Env) (update_list : list ProgressUpdate)
    (db : Table) : Table :=
  match update_list with
  | [] => db
  | u :: rest =>
      save_loop e rest
        (Sql.update_where_id u.(p_bug_id) (progress_row e u) db)
  end.

(** [_save_bug_progress]; the number is [len(update_list)] of the line
    "Updated n bug(s) successfully!". *)
Definition _save_bug_progress (e : Env) (db : Table)
    (update_list : list ProgressUpdate) : Table * nat :=
  (save_loop e update_list db, List.length update_list).

(** [ORDER BY CASE severity ... END] and nothing else. *)
Definition rank_order (a b : BugReport) : bool :=
  Sql.severity_rank a.(severity) <=? Sql.severity_rank b.(severity).

(** Rows of [bugs_ready_for_testing], in display order. *)
Definition bugs_ready_for_testing (db : Table) : list BugReport :=
  Sql.order_by rank_order
    (filter (fun r => String.eqb r.(status) "Good-to-Test") db).

Definition _resolve_bug (e : Env) (db : Table) (bug_id : string)
    : Table * string :=
  (Sql.update_where_id bug_id
     (fun r => set_updated_at e.(now) (set_status "Resolved" r)) db,
   "✅ Bug " ++ bug_id ++ " marked as Resolved!").

(** [row[0] if row and row[0] else ""] *)
Definition current_notes (id : string) (db : Table) : string :=
  match Sql.fetchone id db with
  | Some r => Py.or_else r.(progress_notes) ""
  | None => ""
  end.

(** The block appended by a tester or by the fixer. *)
Definition note_block (e : Env) (verb who text : string) : string :=
  nl ++ nl ++ "[" ++ e.(stamp) ++ "] " ++ verb ++ " " ++ who ++ ":" ++ nl
  ++ text.

Definition _send_bug_back_to_dev (e : Env) (db : Table)
    (bug_id assigned_to notes : string) : Table * string :=
  let tester := acting_user e in
  let updated_notes :=
    current_notes bug_id db ++ note_block e "Sent back by" tester notes in
  (Sql.update_where_id bug_id
     (fun r =>
        set_updated_at e.(now)
          (set_progress_notes (Some updated_notes) (set_status "Assigned" r)))
     db,
   "↩️ Bug " ++ bug_id ++ " sent back to " ++ assigned_to).

(** The dictionary returned by [ai_fix_bug]. *)
Inductive FixReply :=
| FixError (message : string)
| FixSuccess (bug_id new_status : string).

Definition ai_fix_bug (e : Env) (db : Table) (bug_id fix_notes : string)
    : Table * FixReply :=
  match Sql.fetchone bug_id db with
  | None => (db, FixError "Bug not found")
  | Some row =>
      let current := Py.or_else row.(progress_notes) "" in
      let ai_name := Py.or_else (Py.or_opt e.(caller) e.(client)) "AI" in
      let updated_notes :=
        current ++ note_block e "Fixed by" ai_name fix_notes in
      (Sql.update_where_id bug_id
         (fun r =>
            set_updated_at e.(now)
              (set_progress_notes (Some updated_notes)
                 (set_status "Good-to-Test" r)))
         db,
       FixSuccess bug_id "Good-to-Test")
  end.

(** ** Bulk update for automated callers *)

(** One dictionary of the [updates] list; a key that is absent is [None]. *)
Record AiUpdate := mkAiUpdate {
  a_bug_id : option string;
  a_severity : option string;
  a_category : option string;
  a_status : option string;
  a_notes : option string
}.

Inductive AiError :=
| MissingBugId (update : AiUpdate)
| ItemFailed (bug_id error : string).

Record AiReport := mkAiReport {
  applied : list string;
  errors : list AiError
}.

Definition applied_count (r : AiReport) : nat := List.length r.(applied).
Definition error_count (r : AiReport) : nat := List.length r.(errors).

(** The columns declared by [_init_bug_db]. *)
Definition schema_columns : list string :=
  ["bug_id"; "user_id"; "username"; "session_id"; "title"; "description";
   "reproduction_steps"; "severity"; "category"; "system_info";
   "log_context"; "screenshot_path"; "screenshot_name"; "status";
   "assigned_to"; "assigned_at"; "progress_notes"; "reported_at";
   "updated_at"].

Definition column_exists (c : string) : bool :=
  existsb (String.eqb c) schema_columns.

(** The body of the [try] for one update with key [id]: the three guarded
    [UPDATE]s in source order, each followed by its [applied.append]; then
    the notes step, whose [SELECT notes] names a column that the schema
    does not have, so SQLite raises and the [except] clause records the
    item. The writes made before the exception stay in the connection. *)
Definition ai_apply_one (e : Env) (id : string) (u : AiUpdate) (db : Table)
    : Table * list string * option AiError :=
  let short := Py.take 8 id in
  let '(db1, a1) :=
    if Py.truthy_opt u.(a_severity)
    then (Sql.update_where_id id
            (fun r => set_updated_at e.(now) (set_severity u.(a_severity) r))
            db,
          ["Bug " ++ short ++ " severity → " ++ Py.show_opt u.(a_severity)])
    else (db, []) in
  let '(db2, a2) :=
    if Py.truthy_opt u.(a_category)
    then (Sql.update_where_id id
            (fun r => set_updated_at e.(now) (set_category u.(a_category) r))
            db1,
          ["Bug " ++ short ++ " category → " ++ Py.show_opt u.(a_category)])
    else (db1, []) in
  let '(db3, a3) :=
    if Py.truthy_opt u.(a_status)
    then (Sql.update_where_id id
            (fun r =>
               set_updated_at e.(now)
                 (set_status (Py.show_opt u.(a_status)) r))
            db2,
          ["Bug " ++ short ++ " status → " ++ Py.show_opt u.(a_status)])
    else (db2, []) in
  let failure :=
    if Py.truthy_opt u.(a_notes) && negb (column_exists "notes")
    then Some (ItemFailed id "no such column: notes") else None in
  (db3, (a1 ++ a2 ++ a3)%list, failure).

Fixpoint ai_loop (e : Env) (updates_list : list AiUpdate) (db : Table)
    (acc : AiReport) : Table * AiReport :=
  match updates_list with
  | [] => (db, acc)
  | update :: rest =>
      if Py.truthy_opt update.(a_bug_id) then
        let '(db', new_applied, failure) :=
          ai_apply_one e (Py.show_opt update.(a_bug_id)) update db in
        ai_loop e rest db'
          (mkAiReport (acc.(applied) ++ new_applied)%list
             (match failure with
              | Some err => (acc.(errors) ++ [err])%list
              | None => acc.(errors)
              end))
      else
        ai_loop e rest db
          (mkAiReport acc.(applied)
             (acc.(errors) ++ [MissingBugId update])%list)
  end.

(** [ai_manage_bugs] on a list of dictionaries. *)
Definition ai_manage_bugs (e : Env) (db : Table) (updates : list AiUpdate)
    : Table * AiReport :=
  ai_loop e updates db (mkAiReport [] []).

(** ** The form scripts that call the handlers

    The handlers above are reached through the click handlers of the
    forms; a click either shows an alert and stops, or sends the
    arguments to the handler with [sendChatter]. *)

Inductive Click (A : Type) : Type :=
| Alert (msg : string)
| Send (args : A).
Arguments Alert {A} msg.
Arguments Send {A} args.

(** The [data] object built by the submit button of [report_bug]. *)
Record SubmitData := mkSubmitData {
  d_title : string;
  d_description : string;
  d_reproduction_steps : option string;
  d_log_context : option string;
  d_screenshot_data : option string;
  d_screenshot_name : option string
}.

(** The click handler of the submit button; the arguments are the values
    of the four text fields and the screenshot chosen so far. *)
Definition submit_click (titleField descField reproField logsField : string)
    (screenshotData screenshotFilename : option string) : Click SubmitData :=
  if negb (Py.truthy (Js.trim titleField)) then
    Alert "Please enter a bug title"
  else if negb (Py.truthy (Js.trim descField)) then
    Alert "Please enter a bug description"
  else
    Send (mkSubmitData (Js.trim titleField) (Js.trim descField)
            (Js.or_null (Js.trim reproField))
            (Js.or_null (Js.trim logsField))
            screenshotData screenshotFilename).

(** The submit button together with the handler it reaches. *)
Definition report_bug_submit (e : Env) (db : Table)
    (titleField descField reproField logsField : string)
    (screenshotData screenshotFilename : option string)
    : Table * Click (Outcome (list (string * string))) :=
  match submit_click titleField descField reproField logsField
          screenshotData screenshotFilename with
  | Alert m => (db, Alert m)
  | Send d =>
      let '(db', out) :=
        submit_bug_report e db d.(d_title) d.(d_description)
          d.(d_reproduction_steps) d.(d_log_context)
          d.(d_screenshot_data) d.(d_screenshot_name) in
      (db', Send out)
  end.

(** The click handler of a "confirm send back" button of
    [bugs_ready_for_testing]. *)
Definition confirm_send_back_click (bugId assignedTo notes : string)
    : Click (string * string * string) :=
  if negb (Py.truthy (Js.trim notes)) then
    Alert "Please provide a reason for sending back!"
  else Send (bugId, assignedTo, notes).

Definition testing_send_back (e : Env) (db : Table)
    (bugId assignedTo notes : string) : Table * Click string :=
  match confirm_send_back_click bugId assignedTo notes with
  | Alert m => (db, Alert m)
  | Send (b, a, n) =>
      let '(db', line) := _send_bug_back_to_dev e db b a n in
      (db', Send line)
  end.

(** ** The lifecycle operations as one type *)

Inductive LifecycleOp :=
| OpSetStatus (id st : string)                 (* update_bug_status *)
| OpDismiss (id : string)                      (* the dismiss button *)
| OpSaveProgress (ups : list ProgressUpdate)   (* _save_bug_progress *)
| OpResolve (id : string)                      (* _resolve_bug *)
| OpSendBack (id dev notes : string)           (* _send_bug_back_to_dev *)
| OpFixComplete (id notes : string)            (* ai_fix_bug *)
| OpAssign (ids : string).                     (* _assign_bugs_to_me *)

Definition run_op (e : Env) (op : LifecycleOp) (db : Table) : Table :=
  match op with
  | OpSetStatus id st => fst (update_bug_status e db id st)
  | OpDismiss id => fst (update_bug_status e db id "Dismissed")
  | OpSaveProgress ups => fst (_save_bug_progress e db ups)
  | OpResolve id => fst (_resolve_bug e db id)
  | OpSendBack id dev notes => fst (_send_bug_back_to_dev e db id dev notes)
  | OpFixComplete id notes => fst (ai_fix_bug e db id notes)
  | OpAssign ids => fst (_assign_bugs_to_me e db ids)
  end.

(** The status that the last matching element of a progress save names. *)
Fixpoint last_progress_status (ups : list ProgressUpdate) (id : string)
    (acc : option string) : option string :=
  match ups with
  | [] => acc
  | u :: rest =>
      last_progress_status rest id
        (if String.eqb id u.(p_bug_id) then Some u.(p_status) else acc)
  end.

(** The status an operation writes into the rows keyed [id], if any. *)
Definition written_status (op : LifecycleOp) (id : string) : option string :=
  match op with
  | OpSetStatus i st => if String.eqb id i then Some st else None
  | OpDismiss i => if String.eqb id i then Some "Dismissed" else None
  | OpSaveProgress ups => last_progress_status ups id None
  | OpResolve i => if String.eqb id i then Some "Resolved" else None
  | OpSendBack i _ _ => if String.eqb id i then Some "Assigned" else None
  | OpFixComplete i _ => if String.eqb id i then Some "Good-to-Test" else None
  | OpAssign ids =>
      if existsb (String.eqb id) (bug_id_list ids) then Some "Assigned"
      else None
  end.

(** ** The state machine as the specification draws it *)

Module SpecGraph.

(** Stated from the specification, for comparison with the code: the
    edges of the lifecycle graph, over the status strings the code
    stores. *)
Definition terminal (s : string) : bool :=
  String.eqb s "Resolved" || String.eqb s "Dismissed".

Definition edge (from to : string) : bool :=
  (String.eqb from "New" && String.eqb to "Triaged")
  || ((String.eqb from "New" || String.eqb from "Triaged")
      && String.eqb to "Assigned")
  || (String.eqb from "Assigned" && String.eqb to "In Progress")
  || (String.eqb from "In Progress" && String.eqb to "Good-to-Test")
  || (String.eqb from "Good-to-Test" && String.eqb to "Resolved")
  || (String.eqb from "Good-to-Test" && String.eqb to "Assigned")
  || (negb (terminal from) && String.eqb to "Dismissed").

(** Every row keeps its status or moves along an edge. *)
Definition respects (before after : Table) : Prop :=
  Forall2 (fun r r' => r.(status) = r'.(status)
                       \/ edge r.(status) r'.(status) = true)
          before after.


(** The ordering the specification gives to every pending-work listing:
    severity rank ascending, then the timestamp [key] descending. *)
Definition pending_order (key : BugReport -> option Z) (a b : BugReport)
    : Prop :=
  Sql.severity_rank a.(severity) < Sql.severity_rank b.(severity)
  \/ (Sql.severity_rank a.(severity) = Sql.severity_rank b.(severity)
      /\ Sql.desc_leb (key a) (key b) = true).

End SpecGraph.

(** ** Row-wise readings of the loops *)

(** The effect of the assignment loop on one row. *)
Definition assign_many (e : Env) (who : string) (ids : list string)
    (r : BugReport) : BugReport :=
  if existsb (String.eqb r.(bug_id)) ids then assign_row e who r else r.


(** ** Concrete environments and rows used by the examples *)

Definition env_at (who : string) (t : Z) : Env :=
  mkEnv (Some who) (Some "client-1") (Some "session-1") t
        "2025-01-01 00:00:00" "uuid-user" "uuid-bug"
        "Linux 6.1 - Python 3.11" None.

Definition sample_bug (id st : string) (sev who : option string)
    (since : option Z) (notes : option string) (reported : Z) : BugReport :=
  mkBug id "client-0" "reporter" (Some "session-0") "T" "D" None sev None
        None None None None st who since notes reported reported.

(** The effect of the progress-save loop on one row. *)
Definition progress_many (e : Env) (ups : list ProgressUpdate)
    (r : BugReport) : BugReport :=
  fold_left
    (fun row u =>
       if String.eqb row.(bug_id) u.(p_bug_id) then progress_row e u row
       else row)
    ups r.

(** Two fixed bugs waiting for the tester, the older one stored first. *)
Definition waiting_old : BugReport :=
  sample_bug "b1" "Good-to-Test" (Some "High") (Some "alice") (Some 20)
    None 10.

Definition waiting_new : BugReport :=
  sample_bug "b2" "Good-to-Test" (Some "High") (Some "alice") (Some 40)
    None 30.

(** ** Read-only handlers *)

(** The dictionary returned by [get_bug_details]. *)
Record BugDetails := mkDetails {
  g_bug_id : string;
  g_title : string;
  g_description : string;
  g_reproduction_steps : option string;
  g_severity : option string;
  g_category : option string;
  g_status : string;
  g_assigned_to : option string;
  g_assigned_at : option Z;
  g_progress_notes : option string;
  g_system_info : option string;
  g_log_context : option string;
  g_screenshot_path : option string;
  g_reported_at : Z;
  g_updated_at : Z
}.

(** [get_bug_details]: [None] when no row has the key. *)
Definition get_bug_details (db : Table) (id : string) : option BugDetails :=
  match Sql.fetchone id db with
  | None => None
  | Some r =>
      Some (mkDetails r.(bug_id) r.(title) r.(description)
              r.(reproduction_steps) r.(severity) r.(category) r.(status)
              r.(assigned_to) r.(assigned_at) r.(progress_notes)
              r.(system_info) r.(log_context) r.(screenshot_path)
              r.(reported_at) r.(updated_at))
  end.

(** Rows behind the cards of [manage_bug_reports]. *)
Definition manage_bug_reports (db : Table) (limit : Z) : list BugReport :=
  Sql.limit limit
    (Sql.order_by reported_desc
       (filter (fun r => Sql.not_in2 "Dismissed" "Resolved" r.(status)) db)).

(** Rows behind the cards of [my_assigned_bugs_html]: the query of
    [my_assigned_bugs_table]. *)
Definition my_assigned_bugs_html (e : Env) (db : Table) : list BugReport :=
  Sql.order_by todo_order (filter (mine_where e) db).

(** Rows behind the form of [update_my_bug_progress]. *)
Definition update_my_bug_progress (e : Env) (db : Table) : list BugReport :=
  Sql.order_by rank_order (filter (mine_where e) db).

(** What a listing handler shows: a line when the query gave no row, a
    table otherwise. *)
Inductive View (A : Type) : Type :=
| NoRows (line : string)
| Rows (rows : list A).
Arguments NoRows {A} line.
Arguments Rows {A} rows.

(** One entry of the audit table. *)
Record AuditRow := mkAudit {
  au_bug_id : string;
  au_title : string;
  au_severity : string;
  au_category : string;
  au_fixed_by : string;
  au_reported : Z;
  au_resolved : Z;
  au_notes : string
}.

(** [n[:100] + "..." if n and len(n) > 100 else n or ""] *)
Definition audit_notes (n : option string) : string :=
  match n with
  | Some s =>
      if Py.truthy s && (100 <? String.length s)%nat
      then Py.take 100 s ++ "..." else Py.or_else n ""
  | None => ""
  end.

(** [ORDER BY updated_at DESC] *)
Definition updated_desc (a b : BugReport) : bool :=
  b.(updated_at) <=? a.(updated_at).

Definition audit_rows (db : Table) (limit : Z) : list BugReport :=
  Sql.limit limit
    (Sql.order_by updated_desc
       (filter (fun r => String.eqb r.(status) "Resolved") db)).

Definition audit_resolved_bugs (db : Table) (limit : Z) : View AuditRow :=
  match audit_rows db limit with
  | [] => NoRows "📭 No resolved bugs found!"
  | rows =>
      Rows (map (fun r =>
                   mkAudit r.(bug_id) r.(title)
                     (Py.or_else r.(severity) "Unset")
                     (Py.or_else r.(category) "Uncategorized")
                     (Py.or_else r.(assigned_to) "Unknown")
                     r.(reported_at) r.(updated_at)
                     (audit_notes r.(progress_notes)))
                rows)
  end.

(** *** The team dashboard *)

(** [ORDER BY assigned_to, CASE severity ... END]; text is compared byte
    by byte and [NULL] sorts first. *)
Definition text_leb (a b : option string) : bool :=
  match a, b with
  | None, _ => true
  | Some _, None => false
  | Some x, Some y => String.leb x y
  end.

Definition text_eqb (a b : option string) : bool :=
  match a, b with
  | None, None => true
  | Some x, Some y => String.eqb x y
  | _, _ => false
  end.

Definition dashboard_order (a b : BugReport) : bool :=
  if text_eqb a.(assigned_to) b.(assigned_to)
  then Sql.severity_rank a.(severity) <=? Sql.severity_rank b.(severity)
  else text_leb a.(assigned_to) b.(assigned_to).

Definition dashboard_where (r : BugReport) : bool :=
  match r.(assigned_to) with
  | Some a => negb (String.eqb a "")
  | None => false
  end
  && Sql.not_in2 "Resolved" "Dismissed" r.(status).

Definition dashboard_rows (db : Table) : list BugReport :=
  Sql.order_by dashboard_order (filter dashboard_where db).

(** One dictionary of a developer's list. *)
Record DevBug := mkDevBug {
  v_bug_id : string;
  v_title : string;
  v_severity : string;
  v_status : string;
  v_assigned_at : option Z
}.

(** [dev_bugs]: a dictionary in insertion order. *)
Definition DevBugs := list (string * list DevBug).

(** [if dev not in dev_bugs: dev_bugs[dev] = []] and then
    [dev_bugs[dev].append(bug)]. *)
Fixpoint group_add (dev : string) (bug : DevBug) (dev_bugs : DevBugs)
    : DevBugs :=
  match dev_bugs with
  | [] => [(dev, [bug])]
  | (d, bugs) :: rest =>
      if String.eqb d dev then (d, (bugs ++ [bug])%list) :: rest
      else (d, bugs) :: group_add dev bug rest
  end.

(** The dictionary appended for one row. *)
Definition dev_bug (r : BugReport) : DevBug :=
  mkDevBug r.(bug_id) r.(title) (Py.or_else r.(severity) "Unset")
    r.(status) r.(assigned_at).

(** The grouping loop. The query keeps only rows with an assignee, so the
    key of a row is its [assigned_to] text. *)
Definition group_rows (rows : list BugReport) : DevBugs :=
  fold_left
    (fun dev_bugs r =>
       group_add (Py.show_opt r.(assigned_to)) (dev_bug r) dev_bugs)
    rows [].

(** [dev_bugs[dev]], the empty list standing for a missing key. *)
Fixpoint bugs_of (dev : string) (dev_bugs : DevBugs) : list DevBug :=
  match dev_bugs with
  | [] => []
  | (d, bugs) :: rest => if String.eqb d dev then bugs else bugs_of dev rest
  end.

(** One line of the summary table. *)
Record DevSummary := mkSummary {
  developer : string;
  total_bugs : nat;
  n_assigned : nat;
  n_in_progress : nat;
  n_good_to_test : nat;
  n_critical : nat;
  n_high : nat
}.

Definition count_where (p : DevBug -> bool) (bugs : list DevBug) : nat :=
  List.length (filter p bugs).

Definition summarize (entry : string * list DevBug) : DevSummary :=
  let '(dev, bugs) := entry in
  mkSummary dev (List.length bugs)
    (count_where (fun b => String.eqb b.(v_status) "Assigned") bugs)
    (count_where (fun b => String.eqb b.(v_status) "In Progress") bugs)
    (count_where (fun b => String.eqb b.(v_status) "Good-to-Test") bugs)
    (count_where (fun b => String.eqb b.(v_severity) "Critical") bugs)
    (count_where (fun b => String.eqb b.(v_severity) "High") bugs).

(** [team_bug_dashboard]: the summary table and the per-developer tables. *)
Definition team_bug_dashboard (db : Table)
    : View DevSummary * DevBugs :=
  match dashboard_rows db with
  | [] => (NoRows "📭 No bugs currently assigned to anyone!", [])
  | rows =>
      let dev_bugs := group_rows rows in
      (Rows (map summarize dev_bugs), dev_bugs)
  end.

(** ** Every writer as one type *)

Inductive Mutation :=
| MLifecycle (op : LifecycleOp)
| MSeverity (id v : string)                    (* update_bug_severity *)
| MCategory (id v : string)                    (* update_bug_category *)
| MBulk (updates : list AiUpdate).             (* ai_manage_bugs *)

Definition run_mutation (e : Env) (m : Mutation) (db : Table) : Table :=
  match m with
  | MLifecycle op => run_op e op db
  | MSeverity id v => fst (update_bug_severity e db id v)
  | MCategory id v => fst (update_bug_category e db id v)
  | MBulk updates => fst (ai_manage_bugs e db updates)
  end.

(** The [SET] clauses that occur in the file, as a relation between a row
    and the row written over it at the time [e.(now)]. *)
Inductive RowWrite (e : Env) : BugReport -> BugReport -> Prop :=
| WriteSeverity v r :
    RowWrite e r (set_updated_at e.(now) (set_severity v r))
| WriteCategory v r :
    RowWrite e r (set_updated_at e.(now) (set_category v r))
| WriteStatus s r :
    RowWrite e r (set_updated_at e.(now) (set_status s r))
| WriteNotesStatus n s r :
    RowWrite e r
      (set_updated_at e.(now) (set_progress_notes (Some n) (set_status s r)))
| WriteAssign who r :
    RowWrite e r (assign_row e who r).

(** The columns that no [SET] clause names. *)
Definition report_columns (r : BugReport) :=
  (r.(bug_id), r.(user_id), r.(username), r.(session_id), r.(title),
   r.(description), r.(reproduction_steps), r.(system_info),
   r.(log_context), r.(screenshot_path), r.(screenshot_name),
   r.(reported_at)).

(** A row has an assignment time exactly when it has an assignee. *)
Definition assignment_consistent (r : BugReport) : Prop :=
  r.(assigned_at) = None <-> r.(assigned_to) = None.

(** ** More form scripts *)

Module JsArray.

(** [Array.prototype.join] *)
Fixpoint join (sep : string) (l : list string) : string :=
  match l with
  | [] => ""
  | [x] => x
  | x :: rest => x ++ sep ++ join sep rest
  end.

End JsArray.

(** The click handler of the "assign to me" button; [bugIds] are the
    values of the checked boxes. *)
Definition assign_click (bugIds : list string) : Click string :=
  match bugIds with
  | [] => Alert "Please select at least one bug!"
  | _ => Send (JsArray.join "," bugIds)
  end.

Definition assign_form (e : Env) (db : Table) (bugIds : list string)
    : Table * Click (string * Z) :=
  match assign_click bugIds with
  | Alert m => (db, Alert m)
  | Send s =>
      let '(db', out) := _assign_bugs_to_me e db s in (db', Send out)
  end.

(** Any number of [SET] clauses applied to a row one after the other. *)
Inductive RowWrites (e : Env) : BugReport -> BugReport -> Prop :=
| NoWrite r : RowWrites e r r
| ThenWrite r r1 r2 :
    RowWrites e r r1 -> RowWrite e r1 r2 -> RowWrites e r r2.

(** The table of a view, empty when the handler only wrote its line. *)
Definition shown {A : Type} (v : View A) : list A :=
  match v with
  | NoRows _ => []
  | Rows rows => rows
  end.

(** ** Measures used in the statements about the bulk update and the
    assignment form *)

(** Number of the fields severity, category and status that an update
    carries with a value. *)
Definition fields_written (u : AiUpdate) : nat :=
  ((if Py.truthy_opt u.(a_severity) then 1 else 0)
   + (if Py.truthy_opt u.(a_category) then 1 else 0)
   + (if Py.truthy_opt u.(a_status) then 1 else 0))%nat.

Definition item_applied (u : AiUpdate) : nat :=
  if Py.truthy_opt u.(a_bug_id) then fields_written u else 0%nat.

Definition item_failed (u : AiUpdate) : bool :=
  negb (Py.truthy_opt u.(a_bug_id)) || Py.truthy_opt u.(a_notes).

Fixpoint contains_char (c : ascii) (s : string) : bool :=
  match s with
  | EmptyString => false
  | String x rest => Ascii.eqb x c || contains_char c rest
  end.

(** An id that the [join] of the form and the [split] and [strip] of the
    handler hand over unchanged: not empty, without a comma and without
    white space around it. Whether a check box carries such a value is a
    matter of the page, not of this predicate. *)
Definition clean_id (s : string) : bool :=
  Py.truthy s && negb (contains_char "," s) && String.eqb (Py.strip s) s.

(** The values of the status box of the progress form. *)
Definition progress_options : list string :=
  ["Assigned"; "In Progress"; "Good-to-Test"].
(** * Properties *)

(** ** Rows and keyed updates *)

Lemma bug_id_assign_row e who r : bug_id (assign_row e who r) = bug_id r.
Proof. reflexivity. Qed.

Lemma assign_row_twice e1 e2 who1 who2 r :
  assign_row e2 who2 (assign_row e1 who1 r) = assign_row e2 who2 r.
Proof. reflexivity. Qed.

Lemma update_absent id f db :
  Sql.fetchone id db = None -> Sql.update_where_id id f db = db.
Proof.
  unfold Sql.fetchone, Sql.update_where_id.
  induction db as [|r db IH]; simpl; [reflexivity|].
  destruct (String.eqb (bug_id r) id); [discriminate|].
  intros H. now rewrite IH.
Qed.

Lemma assign_loop_spec e who ids :
  forall db n,
    assign_loop e who ids db n
    = (map (assign_many e who ids) db, n + Z.of_nat (List.length ids)).
Proof.
  induction ids as [|id rest IH]; intros db n.
  - simpl. f_equal; [|lia].
    unfold assign_many. simpl. symmetry. apply map_id.
  - cbn [assign_loop]. rewrite IH. f_equal.
    + unfold Sql.update_where_id. rewrite map_map.
      apply map_ext. intros r. unfold assign_many. cbn [existsb].
      destruct (String.eqb (bug_id r) id) eqn:E; cbn [orb].
      * rewrite bug_id_assign_row.
        destruct (existsb _ rest); reflexivity.
      * reflexivity.
    + cbn [List.length]. lia.
Qed.

Lemma assign_table e db ids :
  fst (_assign_bugs_to_me e db ids)
  = map (assign_many e (acting_user e) (bug_id_list ids)) db.
Proof.
  unfold _assign_bugs_to_me. rewrite assign_loop_spec. reflexivity.
Qed.

Lemma length_map_filter {A B} (f : A -> B) (p : A -> bool) (l : list A) :
  List.length (map f (filter p l)) = List.length (filter p l).
Proof. apply length_map. Qed.

Lemma Forall2_map_self {A B} (P : A -> B -> Prop) (g : A -> B) (l : list A) :
  (forall x, P x (g x)) -> Forall2 P l (map g l).
Proof.
  intros H. induction l as [|x l IH]; simpl; constructor; auto.
Qed.

(** ** Assignment *)



(** C3, as the specification states it, fails: the second assignment of
    the same bug to the same actor moves [assigned_at]. *)
Lemma reassign_moves_assigned_at :
  let db := [sample_bug "b1" "New" None None None None 1] in
  let db1 := fst (_assign_bugs_to_me (env_at "alice" 100) db "b1") in
  let db2 := fst (_assign_bugs_to_me (env_at "alice" 200) db1 "b1") in
  map assigned_to db1 = [Some "alice"]
  /\ map assigned_at db1 = [Some 100]
  /\ map assigned_at db2 = [Some 200]
  /\ db2 <> db1.
Proof.
  cbv zeta. repeat split; try (vm_compute; reflexivity).
  vm_compute. discriminate.
Qed.

Lemma in_combine_map {A B} (g : A -> B) (l : list A) x y :
  In (x, y) (combine l (map g l)) -> y = g x.
Proof.
  induction l as [|a l IH]; cbn [map combine In]; [tauto|].
  intros [H|H]; [injection H as <- <-; reflexivity | apply IH, H].
Qed.

(** C3, amended: for every bug that is already assigned to the actor,
    assigning it to the same actor again keeps the assignee and every
    other column except three: [assigned_at] and [updated_at] become the
    time of the call, and the status becomes Assigned. For a bug whose
    status is still Assigned only the two times change. [r'] is the row
    found after the call at the place of [r]. *)
Theorem reassign_resets_status_and_timestamps (e : Env) (db : Table)
    (ids : string) (r r' : BugReport) :
  In (r, r') (combine db (fst (_assign_bugs_to_me e db ids))) ->
  existsb (String.eqb (bug_id r)) (bug_id_list ids) = true ->
  assigned_to r = Some (acting_user e) ->
  r' = set_updated_at e.(now)
         (set_assigned_at (Some e.(now)) (set_status "Assigned" r))
  /\ assigned_to r' = Some (acting_user e)
  /\ (status r = "Assigned" ->
      r' = set_updated_at e.(now) (set_assigned_at (Some e.(now)) r)).
Proof.
  intros Hin Hid Hwho. rewrite assign_table in Hin.
  apply in_combine_map in Hin. subst r'.
  unfold assign_many. rewrite Hid.
  destruct r; cbn in Hwho |- *. subst. repeat split.
  intros ->. reflexivity.
Qed.

(** C3, amended, on a bug of alice that is in progress: the second
    assignment to alice puts it back to Assigned and moves both times. *)
Lemma reassign_resets_status_and_timestamps_witness :
  let e := env_at "alice" 200 in
  let r := sample_bug "b1" "In Progress" None (Some "alice") (Some 100)
             (Some "half done") 1 in
  let r' := sample_bug "b1" "Assigned" None (Some "alice") (Some 200)
              (Some "half done") 1 in
  In (r, set_updated_at 200 r')
    (combine [r] (fst (_assign_bugs_to_me e [r] "b1")))
  /\ existsb (String.eqb (bug_id r)) (bug_id_list "b1") = true
  /\ assigned_to r = Some (acting_user e)
  /\ set_updated_at 200 r'
     = set_updated_at 200
         (set_assigned_at (Some 200) (set_status "Assigned" r)).
Proof.
  cbv zeta.
  assert (H : In (sample_bug "b1" "In Progress" None (Some "alice")
                    (Some 100) (Some "half done") 1,
                  set_updated_at 200
                    (sample_bug "b1" "Assigned" None (Some "alice")
                       (Some 200) (Some "half done") 1))
                (combine
                   [sample_bug "b1" "In Progress" None (Some "alice")
                      (Some 100) (Some "half done") 1]
                   (fst (_assign_bugs_to_me (env_at "alice" 200)
                           [sample_bug "b1" "In Progress" None
                              (Some "alice") (Some 100) (Some "half done")
                              1] "b1")))).
  { left. reflexivity. }
  split; [exact H|]. split; [reflexivity|]. split; [reflexivity|].
  exact (proj1 (reassign_resets_status_and_timestamps
                  (env_at "alice" 200) _ "b1" _ _ H eq_refl eq_refl)).
Defined.

(** C10: the count reported by the assignment is the number of
    comma-separated pieces of the input that are not blank; the table plays
    no part in it, so an id that no row carries is counted as well. *)
Theorem assigned_count_counts_ids (e : Env) (db : Table) (ids : string) :
  snd (snd (_assign_bugs_to_me e db ids))
  = Z.of_nat
      (List.length
         (filter (fun b => Py.truthy (Py.strip b)) (Py.split "," ids))).
Proof.
  unfold _assign_bugs_to_me. rewrite assign_loop_spec. cbn [snd].
  unfold bug_id_list. rewrite length_map_filter. lia.
Qed.

(** An id carried by no row: nothing is written and it is still counted. *)
Example assigned_count_of_unknown_id :
  _assign_bugs_to_me (env_at "alice" 100)
    [sample_bug "b1" "New" None None None None 1] "nope, ,b9"
  = ([sample_bug "b1" "New" None None None None 1], ("alice", 2)).
Proof. vm_compute. reflexivity. Qed.

(** ** Lifecycle *)

Lemma save_loop_spec e ups :
  forall db, save_loop e ups db = map (progress_many e ups) db.
Proof.
  induction ups as [|u rest IH]; intros db; cbn [save_loop].
  - symmetry. apply map_id.
  - rewrite IH. unfold Sql.update_where_id. rewrite map_map.
    apply map_ext. intros r. reflexivity.
Qed.

Lemma bug_id_progress_many e ups :
  forall r, bug_id (progress_many e ups r) = bug_id r.
Proof.
  unfold progress_many.
  induction ups as [|u rest IH]; intros r; cbn [fold_left]; [reflexivity|].
  rewrite IH. destruct (String.eqb _ _); reflexivity.
Qed.

Lemma status_progress_many e ups :
  forall r id s0 acc,
    bug_id r = id ->
    status r = match acc with Some s => s | None => s0 end ->
    status (progress_many e ups r)
    = match last_progress_status ups id acc with
      | Some s => s
      | None => s0
      end.
Proof.
  unfold progress_many.
  induction ups as [|u rest IH]; intros r id s0 acc Hid Hst;
    cbn [fold_left last_progress_status]; [exact Hst|].
  subst id. destruct (String.eqb (bug_id r) (p_bug_id u)) eqn:E.
  - apply IH; reflexivity.
  - apply IH; [reflexivity | exact Hst].
Qed.

(** What a keyed update that writes the status [s] does to the statuses. *)
Lemma keyed_status_write id s (f : BugReport -> BugReport) db :
  (forall r, bug_id (f r) = bug_id r /\ status (f r) = s) ->
  Forall2
    (fun r r' =>
       bug_id r' = bug_id r
       /\ status r' = (if String.eqb (bug_id r) id then s else status r))
    db (Sql.update_where_id id f db).
Proof.
  intros Hf. apply Forall2_map_self. intros r.
  destruct (String.eqb (bug_id r) id); [apply Hf | split; reflexivity].
Qed.

(** C1, as the specification states it, fails: [update_bug_status] takes a
    Resolved bug straight to In Progress, which is no edge of the graph;
    the progress save does the same. *)
Lemma status_change_outside_graph :
  let db := [sample_bug "b1" "Resolved" None (Some "bob") (Some 5) None 1] in
  let e := env_at "bob" 50 in
  SpecGraph.edge "Resolved" "In Progress" = false
  /\ map status (run_op e (OpSetStatus "b1" "In Progress") db)
     = ["In Progress"]
  /\ ~ SpecGraph.respects db (run_op e (OpSetStatus "b1" "In Progress") db)
  /\ ~ SpecGraph.respects db
         (run_op e (OpSaveProgress [mkProgress "b1" "In Progress" (Some "")])
            db).
Proof.
  cbv zeta. repeat split; try (vm_compute; reflexivity).
  - intros H. inversion H as [|r r' l l' Hr _]; subst.
    vm_compute in Hr. destruct Hr as [Hr|Hr]; discriminate Hr.
  - intros H. inversion H as [|r r' l l' Hr _]; subst.
    vm_compute in Hr. destruct Hr as [Hr|Hr]; discriminate Hr.
Qed.

(** C1, amended: no lifecycle operation reads the status it replaces. After
    an operation, a row addressed by it carries the status the operation
    writes (the caller's value for [update_bug_status] and the progress
    save, Dismissed for dismiss, Resolved for resolve, Assigned for
    send-back and assignment, Good-to-Test for fix-complete), whatever
    status it had; every other row keeps its status. *)
Theorem status_after_is_written_status (e : Env) (op : LifecycleOp)
    (db : Table) :
  Forall2
    (fun r r' =>
       bug_id r' = bug_id r
       /\ status r' = match written_status op (bug_id r) with
                      | Some s => s
                      | None => status r
                      end)
    db (run_op e op db).
Proof.
  assert (K : forall id s (f : BugReport -> BugReport) tbl,
             (forall r, bug_id (f r) = bug_id r /\ status (f r) = s) ->
             Forall2
               (fun r r' =>
                  bug_id r' = bug_id r
                  /\ status r' = match (if String.eqb (bug_id r) id
                                        then Some s else None) with
                                 | Some s' => s'
                                 | None => status r
                                 end)
               tbl (Sql.update_where_id id f tbl)).
  { intros id s f tbl Hf.
    eapply Forall2_impl; [|apply (keyed_status_write id s f tbl Hf)].
    intros r r' [H1 H2]. split; [exact H1|].
    rewrite H2. destruct (String.eqb _ _); reflexivity. }
  destruct op as [id st|id|ups|id|id dev notes|id notes|ids];
    cbn [run_op written_status].
  - apply K. intros r; split; reflexivity.
  - apply K. intros r; split; reflexivity.
  - cbn [_save_bug_progress fst]. rewrite save_loop_spec.
    apply Forall2_map_self. intros r. split.
    + apply bug_id_progress_many.
    + apply (status_progress_many e ups r (bug_id r) (status r) None);
        reflexivity.
  - apply K. intros r; split; reflexivity.
  - apply K. intros r; split; reflexivity.
  - unfold ai_fix_bug. destruct (Sql.fetchone id db) as [row|] eqn:E.
    + apply K. intros r; split; reflexivity.
    + cbn [fst].
      rewrite <- (update_absent id (set_status "Good-to-Test") db E) at 2.
      apply K. intros r; split; reflexivity.
  - rewrite assign_table. apply Forall2_map_self. intros r.
    unfold assign_many.
    destruct (existsb _ _); split; reflexivity.
Qed.

(** ** Progress notes *)

Lemma prefix_app (a b : string) : String.prefix a (a ++ b) = true.
Proof.
  induction a as [|c a IH]; simpl.
  - destruct b; reflexivity.
  - destruct (ascii_dec c c) as [_|N]; [exact IH | contradiction].
Qed.

Lemma fetchone_update id f db r :
  (forall x, bug_id (f x) = bug_id x) ->
  Sql.fetchone id db = Some r ->
  Sql.fetchone id (Sql.update_where_id id f db) = Some (f r).
Proof.
  intros Hf. unfold Sql.fetchone, Sql.update_where_id.
  induction db as [|x db IH]; simpl; [discriminate|].
  destruct (String.eqb (bug_id x) id) eqn:E.
  - intros H. injection H as ->. rewrite Hf, E. reflexivity.
  - rewrite E. exact IH.
Qed.

Lemma truthy_app_block a e verb who text :
  Py.truthy (a ++ note_block e verb who text) = true.
Proof. destruct a; reflexivity. Qed.

(** Send-back appends: the notes read before the call are a prefix of the
    notes read after it. *)
Lemma send_back_appends e db id dev notes r :
  Sql.fetchone id db = Some r ->
  exists r',
    Sql.fetchone id (fst (_send_bug_back_to_dev e db id dev notes)) = Some r'
    /\ progress_notes r'
       = Some (Py.or_else (progress_notes r) ""
               ++ note_block e "Sent back by" (acting_user e) notes)
    /\ String.prefix (Py.or_else (progress_notes r) "")
         (Py.or_else (progress_notes r') "") = true.
Proof.
  intros H. unfold _send_bug_back_to_dev, current_notes. rewrite H. cbn [fst].
  eexists. split; [apply fetchone_update; [reflexivity | exact H]|].
  cbn [progress_notes set_updated_at set_progress_notes]. split; [reflexivity|].
  cbn [Py.or_else]. rewrite truthy_app_block. apply prefix_app.
Qed.

(** Fix-complete appends in the same way. *)
Lemma fix_complete_appends e db id notes r :
  Sql.fetchone id db = Some r ->
  exists r',
    Sql.fetchone id (fst (ai_fix_bug e db id notes)) = Some r'
    /\ String.prefix (Py.or_else (progress_notes r) "")
         (Py.or_else (progress_notes r') "") = true.
Proof.
  intros H. unfold ai_fix_bug. rewrite H. cbn [fst].
  eexists. split; [apply fetchone_update; [reflexivity | exact H]|].
  cbn [progress_notes set_updated_at set_progress_notes Py.or_else].
  rewrite truthy_app_block. apply prefix_app.
Qed.

(** C4: the progress save does not append. Saving the progress form with
    its notes box left empty replaces the log of the bug by the empty
    text, so the earlier contents are no prefix of the new contents. *)
Theorem progress_save_overwrites_notes :
  let db := [sample_bug "b1" "Assigned" None (Some "alice") (Some 5)
               (Some "first entry of the log") 1] in
  let db' := fst (_save_bug_progress (env_at "alice" 50) db
                    [mkProgress "b1" "In Progress" (Some "")]) in
  map progress_notes db = [Some "first entry of the log"]
  /\ map progress_notes db' = [Some ""]
  /\ String.prefix "first entry of the log" "" = false.
Proof. cbv zeta. repeat split; vm_compute; reflexivity. Qed.

(** ** Unknown ids *)

(** A keyed update of an id that no row carries writes nothing, and the
    three single-record handlers send the same line as for a known id. *)
Lemma unknown_id_is_not_noticed e db id v :
  Sql.fetchone id db = None ->
  update_bug_severity e db id v
  = (db, "✅ Bug " ++ id ++ " severity updated to "
         ++ Py.show_opt (blank_to_null v))
  /\ update_bug_status e db id v
     = (db, "✅ Bug " ++ id ++ " status updated to " ++ v)
  /\ _resolve_bug e db id = (db, "✅ Bug " ++ id ++ " marked as Resolved!").
Proof.
  intros H. unfold update_bug_severity, update_bug_status, _resolve_bug.
  rewrite !(update_absent id _ db H). repeat split.
Qed.

(** C5: on an id that is not in the table, [update_bug_severity],
    [update_bug_status] and [_resolve_bug] leave the table alone but send
    their line of success; [ai_fix_bug] on the same input answers that the
    bug was not found. *)
Theorem unknown_id_reported_as_success :
  let db := [sample_bug "b1" "New" None None None None 1] in
  let e := env_at "manager" 50 in
  Sql.fetchone "nope" db = None
  /\ update_bug_severity e db "nope" "High"
     = (db, "✅ Bug nope severity updated to High")
  /\ update_bug_status e db "nope" "Triaged"
     = (db, "✅ Bug nope status updated to Triaged")
  /\ _resolve_bug e db "nope" = (db, "✅ Bug nope marked as Resolved!")
  /\ ai_fix_bug e db "nope" "patched" = (db, FixError "Bug not found").
Proof. cbv zeta. repeat split; vm_compute; reflexivity. Qed.

(** ** Bulk update *)

(** The loop never stops early: a list in two parts is processed as the
    first part followed by the second. *)
Lemma ai_loop_app e l1 :
  forall l2 db acc,
    ai_loop e (l1 ++ l2) db acc
    = let '(db1, acc1) := ai_loop e l1 db acc in ai_loop e l2 db1 acc1.
Proof.
  induction l1 as [|u l1 IH]; intros l2 db acc; [reflexivity|].
  cbn [app ai_loop]. destruct (Py.truthy_opt (a_bug_id u)).
  - destruct (ai_apply_one e _ u db) as [[db' new_applied] failure].
    apply IH.
  - apply IH.
Qed.

(** C6: one update for a known id and one for an unknown id give two
    entries in [applied] and none in [errors]; the update of the known
    bug is in the table. *)
Theorem bulk_update_counts_unknown_id_as_applied :
  let db := [sample_bug "b1" "New" None None None None 1] in
  let updates := [mkAiUpdate (Some "b1") (Some "High") None None None;
                  mkAiUpdate (Some "nope") (Some "Low") None None None] in
  let '(db', report) := ai_manage_bugs (env_at "ai" 50) db updates in
  Sql.fetchone "nope" db = None
  /\ applied report = ["Bug b1 severity → High"; "Bug nope severity → Low"]
  /\ applied_count report = 2%nat
  /\ error_count report = 0%nat
  /\ map severity db' = [Some "High"].
Proof. vm_compute. repeat split. Qed.

(** An update without a bug id is the failure the loop does record, and
    the updates around it are applied. *)
Example bulk_update_isolates_missing_id :
  let db := [sample_bug "b1" "New" None None None None 1;
             sample_bug "b2" "New" None None None None 2] in
  let updates := [mkAiUpdate (Some "b1") (Some "High") None None None;
                  mkAiUpdate None (Some "Low") None None None;
                  mkAiUpdate (Some "b2") None None (Some "Triaged") None] in
  let '(db', report) := ai_manage_bugs (env_at "ai" 50) db updates in
  applied_count report = 2%nat
  /\ errors report
     = [MissingBugId (mkAiUpdate None (Some "Low") None None None)]
  /\ map severity db' = [Some "High"; None]
  /\ map status db' = ["New"; "Triaged"].
Proof. vm_compute. repeat split. Qed.

(** ** Validation *)

(** C9, as the specification states it, fails for the handlers: called
    with an empty title and description, [submit_bug_report] inserts a
    row; called with an empty reason, [_send_bug_back_to_dev] rewrites the
    bug. *)
Lemma handlers_accept_empty_input :
  let e := env_at "carol" 50 in
  let db := [sample_bug "b1" "Good-to-Test" None (Some "alice") (Some 5)
               None 1] in
  map title (fst (submit_bug_report e [] "" "" None None None None)) = [""]
  /\ fst (submit_bug_report e [] "" "" None None None None) <> []
  /\ map status (fst (_send_bug_back_to_dev e db "b1" "alice" ""))
     = ["Assigned"]
  /\ fst (_send_bug_back_to_dev e db "b1" "alice" "") <> db.
Proof.
  cbv zeta. repeat split; try (vm_compute; reflexivity);
    vm_compute; discriminate.
Qed.

(** C9, amended: the check for empty input is made by the form scripts.
    With a title or a description that is blank, the submit button shows
    an alert and calls nothing; with a blank reason, the confirm button of
    the send-back form shows an alert and calls nothing. In both cases the
    table is not read or written. *)
Theorem blank_input_stops_at_the_form (e : Env) (db : Table)
    (titleField descField reproField logsField : string)
    (screenshotData screenshotFilename : option string)
    (bugId assignedTo notes : string) :
  Js.trim titleField = "" \/ Js.trim descField = "" ->
  Js.trim notes = "" ->
  (exists m,
      report_bug_submit e db titleField descField reproField logsField
        screenshotData screenshotFilename = (db, Alert m))
  /\ testing_send_back e db bugId assignedTo notes
     = (db, Alert "Please provide a reason for sending back!").
Proof.
  intros Hsub Hnotes. split.
  - unfold report_bug_submit, submit_click.
    destruct (Py.truthy (Js.trim titleField)) eqn:Et; cbn [negb].
    + destruct Hsub as [H|H]; [rewrite H in Et; discriminate|].
      rewrite H. cbn. eexists; reflexivity.
    + eexists; reflexivity.
  - unfold testing_send_back, confirm_send_back_click.
    rewrite Hnotes. reflexivity.
Qed.

(** C9, amended, on a title of two spaces and a reason of one space. *)
Lemma blank_input_stops_at_the_form_witness :
  let e := env_at "carol" 50 in
  let db := [sample_bug "b1" "Good-to-Test" None (Some "alice") (Some 5)
               None 1] in
  (Js.trim "  " = "" \/ Js.trim "it broke" = "")
  /\ Js.trim " " = ""
  /\ (exists m,
         report_bug_submit e db "  " "it broke" "" "" None None
         = (db, Alert m))
  /\ testing_send_back e db "b1" "alice" " "
     = (db, Alert "Please provide a reason for sending back!").
Proof.
  cbv zeta. split; [left; reflexivity|]. split; [reflexivity|].
  apply (blank_input_stops_at_the_form (env_at "carol" 50) _
           "  " "it broke" "" "" None None "b1" "alice" " ").
  - left; reflexivity.
  - reflexivity.
Defined.

(** ** Listings *)

Section OrderByFacts.
Context {A : Type} (leb : A -> A -> bool) (R : A -> A -> Prop).

Lemma insert_perm x l : Permutation (Sql.insert leb x l) (x :: l).
Proof.
  induction l as [|y ys IH]; cbn [Sql.insert]; [reflexivity|].
  destruct (leb x y); [reflexivity|].
  rewrite IH. apply perm_swap.
Qed.

Lemma order_by_perm l : Permutation (Sql.order_by leb l) l.
Proof.
  induction l as [|x xs IH]; cbn [Sql.order_by]; [reflexivity|].
  rewrite insert_perm. now constructor.
Qed.

Lemma in_order_by x l : In x (Sql.order_by leb l) <-> In x l.
Proof.
  split; apply Permutation_in;
    [apply order_by_perm | symmetry; apply order_by_perm].
Qed.

Hypothesis leb_sound : forall a b, leb a b = true -> R a b.
Hypothesis leb_total : forall a b, leb a b = false -> R b a.
Hypothesis R_trans : forall a b c, R a b -> R b c -> R a c.

Lemma insert_sorted x l :
  StronglySorted R l -> StronglySorted R (Sql.insert leb x l).
Proof.
  induction 1 as [|y ys Hs IH Hall]; cbn [Sql.insert].
  - repeat constructor.
  - destruct (leb x y) eqn:E.
    + constructor; [constructor; assumption|].
      constructor; [apply leb_sound, E|].
      eapply Forall_impl; [|exact Hall].
      intros z Hz. eapply R_trans; [apply leb_sound, E | exact Hz].
    + constructor; [exact IH|].
      eapply Permutation_Forall; [symmetry; apply insert_perm|].
      constructor; [apply leb_total, E | exact Hall].
Qed.

Lemma order_by_sorted l : StronglySorted R (Sql.order_by leb l).
Proof.
  induction l as [|x xs IH]; cbn [Sql.order_by];
    [constructor | apply insert_sorted, IH].
Qed.
End OrderByFacts.

Lemma desc_leb_total a b : Sql.desc_leb a b = false -> Sql.desc_leb b a = true.
Proof.
  destruct a as [x|], b as [y|]; cbn; try congruence; intros H.
  apply Z.leb_le. apply Z.leb_gt in H. lia.
Qed.

Lemma desc_leb_trans a b c :
  Sql.desc_leb a b = true -> Sql.desc_leb b c = true ->
  Sql.desc_leb a c = true.
Proof.
  destruct a as [x|], b as [y|], c as [z|]; cbn; try congruence.
  rewrite !Z.leb_le. lia.
Qed.

Lemma pending_order_trans key a b c :
  SpecGraph.pending_order key a b -> SpecGraph.pending_order key b c ->
  SpecGraph.pending_order key a c.
Proof.
  unfold SpecGraph.pending_order.
  intros [H1|[H1 K1]] [H2|[H2 K2]]; try (left; lia).
  right. split; [lia | eapply desc_leb_trans; eassumption].
Qed.

(** The comparison of a listing that orders by rank and then by [key]. *)
Lemma ranked_leb_sound key a b :
  let ra := Sql.severity_rank (severity a) in
  let rb := Sql.severity_rank (severity b) in
  (ra <? rb) || ((ra =? rb) && Sql.desc_leb (key a) (key b)) = true ->
  SpecGraph.pending_order key a b.
Proof.
  cbv zeta. unfold SpecGraph.pending_order. intros H.
  apply orb_true_iff in H. destruct H as [H|H].
  - left. now apply Z.ltb_lt.
  - apply andb_true_iff in H. destruct H as [H1 H2].
    right. split; [now apply Z.eqb_eq | exact H2].
Qed.

Lemma ranked_leb_total key a b :
  let ra := Sql.severity_rank (severity a) in
  let rb := Sql.severity_rank (severity b) in
  (ra <? rb) || ((ra =? rb) && Sql.desc_leb (key a) (key b)) = false ->
  SpecGraph.pending_order key b a.
Proof.
  cbv zeta. unfold SpecGraph.pending_order. intros H.
  apply orb_false_iff in H. destruct H as [H1 H2].
  apply Z.ltb_ge in H1. apply andb_false_iff in H2.
  destruct H2 as [H2|H2].
  - apply Z.eqb_neq in H2. left. lia.
  - destruct (Z.eq_dec (Sql.severity_rank (severity a))
                (Sql.severity_rank (severity b))) as [E|N].
    + right. split; [lia | now apply desc_leb_total].
    + left. lia.
Qed.

(** The ranks of the [CASE] expression; a severity that is not one of the
    four names, or is missing, ranks last. *)
Example severity_rank_values :
  map Sql.severity_rank
    [Some "Critical"; Some "High"; Some "Medium"; Some "Low"; Some "low";
     None]
  = [1; 2; 3; 4; 5; 5].
Proof. reflexivity. Qed.

(** C7, as the specification states it, fails: two bugs of the same
    severity wait for the tester; the queue shows the older one first,
    under the reported time and under the assignment time alike. *)
Lemma tester_queue_ignores_timestamps :
  let db := [waiting_old; waiting_new] in
  bugs_ready_for_testing db = [waiting_old; waiting_new]
  /\ assign_bugs_interactive
       [set_status "New" (set_assigned_to None waiting_old);
        set_status "New" (set_assigned_to None waiting_new)]
     = [set_status "New" (set_assigned_to None waiting_new);
        set_status "New" (set_assigned_to None waiting_old)]
  /\ ~ StronglySorted
         (SpecGraph.pending_order (fun r => Some (reported_at r)))
         (bugs_ready_for_testing db)
  /\ ~ StronglySorted (SpecGraph.pending_order assigned_at)
         (bugs_ready_for_testing db).
Proof.
  cbv zeta. repeat split; try (vm_compute; reflexivity).
  - intros H. inversion H as [|x l _ Hall]; subst.
    inversion Hall as [|y l' Hxy _]; subst.
    destruct Hxy as [Hlt|[_ Hk]]; vm_compute in *; discriminate.
  - intros H. inversion H as [|x l _ Hall]; subst.
    inversion Hall as [|y l' Hxy _]; subst.
    destruct Hxy as [Hlt|[_ Hk]]; vm_compute in *; discriminate.
Qed.

(** C7, amended: the unassigned-bug picker is ordered by severity rank
    ascending and then by report time descending; the to-do list by
    severity rank ascending and then by assignment time descending, bugs
    without one last; the tester queue by severity rank ascending only. *)
Theorem pending_listings_order (e : Env) (db : Table) :
  StronglySorted (SpecGraph.pending_order (fun r => Some (reported_at r)))
    (assign_bugs_interactive db)
  /\ StronglySorted (SpecGraph.pending_order assigned_at)
       (my_assigned_bugs_table e db)
  /\ StronglySorted
       (fun a b => Sql.severity_rank (severity a)
                   <= Sql.severity_rank (severity b))
       (bugs_ready_for_testing db).
Proof.
  repeat split.
  - apply order_by_sorted.
    + intros a b. apply (ranked_leb_sound (fun r => Some (reported_at r))).
    + intros a b. apply (ranked_leb_total (fun r => Some (reported_at r))).
    + apply pending_order_trans.
  - apply order_by_sorted.
    + intros a b. apply (ranked_leb_sound assigned_at).
    + intros a b. apply (ranked_leb_total assigned_at).
    + apply pending_order_trans.
  - apply order_by_sorted.
    + intros a b H. now apply Z.leb_le.
    + intros a b H. apply Z.leb_gt in H. lia.
    + intros a b c. lia.
Qed.

Lemma in_limit {A} n (x : A) l : In x (Sql.limit n l) -> In x l.
Proof.
  unfold Sql.limit. destruct (n <? 0); [trivial|].
  intros H. rewrite <- (firstn_skipn (Z.to_nat n) l).
  apply in_or_app. now left.
Qed.

Lemma not_in2_spec a b s :
  Sql.not_in2 a b s = true -> s <> a /\ s <> b.
Proof.
  unfold Sql.not_in2. intros H. apply andb_true_iff in H.
  destruct H as [H1 H2].
  apply negb_true_iff in H1. apply negb_true_iff in H2.
  split; now apply String.eqb_neq.
Qed.

(** C8: whatever the table, the two filters and the limit, no entry of the
    list of open reports has status Resolved or Dismissed. *)
Theorem list_excludes_closed (db : Table)
    (status_filter severity_filter : option string) (limit : Z) :
  Forall (fun row => o_status row <> "Resolved"
                     /\ o_status row <> "Dismissed")
    (list_bug_reports db status_filter severity_filter limit).
Proof.
  apply Forall_forall. intros row Hin. unfold list_bug_reports in Hin.
  apply in_map_iff in Hin. destruct Hin as [r [<- Hr]].
  apply in_limit, in_order_by, filter_In in Hr. destruct Hr as [_ Hw].
  unfold list_where in Hw. apply andb_true_iff in Hw.
  destruct Hw as [Hw _]. apply andb_true_iff in Hw. destruct Hw as [Hw _].
  apply not_in2_spec in Hw. cbn [o_status]. tauto.
Qed.

(** The list is not empty for nothing: open bugs are shown, newest first,
    closed ones are not, even when the filter asks for them. *)
Example list_shows_open_bugs :
  let db := [sample_bug "b1" "New" None None None None 1;
             sample_bug "b2" "Resolved" None None None None 2;
             sample_bug "b3" "Assigned" (Some "Low") None None None 3;
             sample_bug "b4" "Dismissed" None None None None 4] in
  map o_bug_id (list_bug_reports db None (Some "None") 20) = ["b3"; "b1"]
  /\ list_bug_reports db (Some "Resolved") None 20 = []
  /\ map o_bug_id (list_bug_reports db None None 1) = ["b3"].
Proof. cbv zeta. repeat split; vm_compute; reflexivity. Qed.

(** * Further properties of the handlers *)

(** ** Every writer is a row-wise sequence of [SET] clauses *)

Lemma RowWrites_one e r r' : RowWrite e r r' -> RowWrites e r r'.
Proof. intros H. eapply ThenWrite; [apply NoWrite | exact H]. Qed.

Lemma RowWrites_trans e r1 r2 r3 :
  RowWrites e r1 r2 -> RowWrites e r2 r3 -> RowWrites e r1 r3.
Proof.
  intros H12 H23. induction H23 as [|r r' r'' _ IH Hw]; [exact H12|].
  eapply ThenWrite; [apply IH, H12 | exact Hw].
Qed.

Lemma Forall2_RowWrites_refl e db : Forall2 (RowWrites e) db db.
Proof. induction db; constructor; [apply NoWrite | assumption]. Qed.

Lemma Forall2_RowWrites_trans e a :
  forall b c,
    Forall2 (RowWrites e) a b -> Forall2 (RowWrites e) b c ->
    Forall2 (RowWrites e) a c.
Proof.
  induction a as [|x a IH]; intros b c Hab Hbc.
  - inversion Hab; subst. inversion Hbc; subst. constructor.
  - inversion Hab as [|? y ? b' Hxy Hab']; subst.
    inversion Hbc as [|? z ? c' Hyz Hbc']; subst.
    constructor; [eapply RowWrites_trans; eassumption | eapply IH; eassumption].
Qed.

Lemma keyed_rowwise e id f db :
  (forall r, RowWrite e r (f r)) ->
  Forall2 (RowWrites e) db (Sql.update_where_id id f db).
Proof.
  intros Hf. apply Forall2_map_self. intros r.
  destruct (String.eqb (bug_id r) id);
    [apply RowWrites_one, Hf | apply NoWrite].
Qed.

Lemma save_loop_rowwise e ups :
  forall db, Forall2 (RowWrites e) db (save_loop e ups db).
Proof.
  induction ups as [|u rest IH]; intros db; cbn [save_loop].
  - apply Forall2_RowWrites_refl.
  - eapply Forall2_RowWrites_trans; [|apply IH].
    apply keyed_rowwise. intros r. apply WriteNotesStatus.
Qed.

Lemma ai_apply_one_rowwise e id u db :
  Forall2 (RowWrites e) db (fst (fst (ai_apply_one e id u db))).
Proof.
  unfold ai_apply_one.
  destruct (Py.truthy_opt (a_severity u)), (Py.truthy_opt (a_category u)),
    (Py.truthy_opt (a_status u)); cbn [fst];
    repeat (first
      [ apply Forall2_RowWrites_refl
      | apply keyed_rowwise; intros r;
        first [apply WriteSeverity | apply WriteCategory | apply WriteStatus]
      | eapply Forall2_RowWrites_trans;
        [|apply keyed_rowwise; intros r;
          first [apply WriteSeverity | apply WriteCategory
                | apply WriteStatus]] ]).
Qed.

Lemma ai_loop_rowwise e ups :
  forall db acc, Forall2 (RowWrites e) db (fst (ai_loop e ups db acc)).
Proof.
  induction ups as [|u rest IH]; intros db acc; cbn [ai_loop].
  - apply Forall2_RowWrites_refl.
  - destruct (Py.truthy_opt (a_bug_id u)); [|apply IH].
    pose proof (ai_apply_one_rowwise e (Py.show_opt (a_bug_id u)) u db) as H.
    destruct (ai_apply_one e _ u db) as [[db' new_applied] failure].
    cbn [fst] in H. eapply Forall2_RowWrites_trans; [exact H | apply IH].
Qed.

(** Whatever writer runs, the table it leaves has the rows of the table it
    found, in place, each after some sequence of the [SET] clauses. *)
Lemma mutation_rowwise e m db :
  Forall2 (RowWrites e) db (run_mutation e m db).
Proof.
  destruct m as [op|id v|id v|updates]; cbn [run_mutation].
  - destruct op as [id st|id|ups|id|id dev notes|id notes|ids];
      cbn [run_op].
    + apply keyed_rowwise. intros r. apply WriteStatus.
    + apply keyed_rowwise. intros r. apply WriteStatus.
    + apply save_loop_rowwise.
    + apply keyed_rowwise. intros r. apply WriteStatus.
    + apply keyed_rowwise. intros r. apply WriteNotesStatus.
    + unfold ai_fix_bug. destruct (Sql.fetchone id db);
        [|apply Forall2_RowWrites_refl].
      apply keyed_rowwise. intros r. apply WriteNotesStatus.
    + rewrite assign_table. apply Forall2_map_self. intros r.
      unfold assign_many.
      destruct (existsb _ _);
        [apply RowWrites_one, WriteAssign | apply NoWrite].
  - apply keyed_rowwise. intros r. apply WriteSeverity.
  - apply keyed_rowwise. intros r. apply WriteCategory.
  - apply ai_loop_rowwise.
Qed.

Lemma RowWrites_columns e r r' :
  RowWrites e r r' -> report_columns r' = report_columns r.
Proof.
  induction 1 as [|r r1 r2 _ IH Hw]; [reflexivity|].
  rewrite <- IH. destruct Hw; reflexivity.
Qed.

Lemma mutation_keys e m db :
  map bug_id (run_mutation e m db) = map bug_id db.
Proof.
  pose proof (mutation_rowwise e m db) as H.
  induction H as [|r r' l l' Hr _ IH]; [reflexivity|].
  cbn [map]. rewrite IH. f_equal.
  apply RowWrites_columns in Hr. unfold report_columns in Hr. congruence.
Qed.

(** ** Invariants of the table *)

(** X1: no writer other than the submission adds, removes or moves a row,
    and none changes the key, the reporter, the session, the title, the
    description, the reproduction steps, the system and log texts, the
    screenshot or the report time of a row. *)
Theorem writers_keep_report_columns (e : Env) (m : Mutation) (db : Table) :
  Forall2 (fun r r' => report_columns r' = report_columns r)
    db (run_mutation e m db).
Proof.
  eapply Forall2_impl; [|apply mutation_rowwise].
  intros r r'. apply RowWrites_columns.
Qed.

(** X2: a writer never changes a row without setting its [updated_at] to
    the current time. *)
Theorem writers_stamp_updated_at (e : Env) (m : Mutation) (db : Table) :
  Forall2 (fun r r' => r' = r \/ updated_at r' = e.(now))
    db (run_mutation e m db).
Proof.
  eapply Forall2_impl; [|apply mutation_rowwise].
  intros r r' H. destruct H as [r|r r1 r2 _ Hw]; [left; reflexivity|].
  right. destruct Hw; reflexivity.
Qed.

Lemma RowWrites_consistent e r r' :
  RowWrites e r r' -> assignment_consistent r -> assignment_consistent r'.
Proof.
  induction 1 as [|r r1 r2 _ IH Hw]; [trivial|].
  intros H. specialize (IH H). unfold assignment_consistent in *.
  destruct Hw; cbn; try exact IH.
  split; discriminate.
Qed.

(** X3: if every row has an assignment time exactly when it has an
    assignee, the same holds after any writer and after a submission. *)
Theorem assignment_consistency_kept (e : Env) (m : Mutation) (db : Table)
    (title description : string)
    (reproduction_steps log_context screenshot_data screenshot_name
       : option string) :
  Forall assignment_consistent db ->
  Forall assignment_consistent (run_mutation e m db)
  /\ Forall assignment_consistent
       (fst (submit_bug_report e db title description reproduction_steps
               log_context screenshot_data screenshot_name)).
Proof.
  intros H. split.
  - pose proof (mutation_rowwise e m db) as HW.
    induction HW as [|r r' l l' Hr _ IH]; [constructor|].
    inversion H; subst. constructor; [|apply IH; assumption].
    eapply RowWrites_consistent; eassumption.
  - unfold submit_bug_report. destruct (Sql.fetchone _ db); cbn [fst];
      [exact H|].
    apply Forall_app. split; [exact H|].
    constructor; [|constructor]. unfold assignment_consistent. cbn. tauto.
Qed.

(** X3 on a table of one unassigned bug, with an assignment as writer. *)
Lemma assignment_consistency_kept_witness :
  let e := env_at "alice" 100 in
  let db := [sample_bug "b1" "New" None None None None 1] in
  Forall assignment_consistent db
  /\ Forall assignment_consistent
       (run_mutation e (MLifecycle (OpAssign "b1")) db)
  /\ Forall assignment_consistent
       (fst (submit_bug_report e db "T2" "D2" None None None None)).
Proof.
  cbv zeta.
  assert (H : Forall assignment_consistent
                [sample_bug "b1" "New" None None None None 1]).
  { constructor; [|constructor]. unfold assignment_consistent. cbn. tauto. }
  split; [exact H|].
  apply (assignment_consistency_kept (env_at "alice" 100)
           (MLifecycle (OpAssign "b1")) _ "T2" "D2" None None None None H).
Defined.

Lemma fetchone_none id db :
  Sql.fetchone id db = None -> ~ In id (map bug_id db).
Proof.
  unfold Sql.fetchone. induction db as [|r db IH]; cbn; [tauto|].
  destruct (String.eqb (bug_id r) id) eqn:E; [discriminate|].
  intros H [Hin|Hin]; [|exact (IH H Hin)].
  apply String.eqb_neq in E. contradiction.
Qed.

Lemma fetchone_app id (db tl : Table) :
  Sql.fetchone id (db ++ tl)%list
  = match Sql.fetchone id db with
    | Some r => Some r
    | None => Sql.fetchone id tl
    end.
Proof.
  unfold Sql.fetchone. induction db as [|r db IH]; cbn; [reflexivity|].
  destruct (String.eqb (bug_id r) id); [reflexivity | exact IH].
Qed.

(** X4: if no two rows share a key, no two rows share a key after a
    submission or after any writer. *)
Theorem keys_stay_unique (e : Env) (m : Mutation) (db : Table)
    (title description : string)
    (reproduction_steps log_context screenshot_data screenshot_name
       : option string) :
  NoDup (map bug_id db) ->
  NoDup (map bug_id
           (fst (submit_bug_report e db title description
                   reproduction_steps log_context screenshot_data
                   screenshot_name)))
  /\ NoDup (map bug_id (run_mutation e m db)).
Proof.
  intros H. split; [|rewrite mutation_keys; exact H].
  unfold submit_bug_report.
  destruct (Sql.fetchone (uuid_bug e) db) eqn:E; cbn [fst]; [exact H|].
  rewrite map_app. cbn [map bug_id].
  eapply Permutation_NoDup; [apply Permutation_cons_append|].
  constructor; [apply fetchone_none, E | exact H].
Qed.

(** X4 on a table that already holds the key the submission draws: the
    submission is refused and the keys stay distinct. *)
Lemma keys_stay_unique_witness :
  let e := env_at "alice" 100 in
  let db := [sample_bug "uuid-bug" "New" None None None None 1;
             sample_bug "b2" "New" None None None None 2] in
  NoDup (map bug_id db)
  /\ NoDup (map bug_id
              (fst (submit_bug_report e db "T" "D" None None None None)))
  /\ NoDup (map bug_id (run_mutation e (MSeverity "b2" "High") db)).
Proof.
  cbv zeta.
  assert (H : NoDup (map bug_id
                       [sample_bug "uuid-bug" "New" None None None None 1;
                        sample_bug "b2" "New" None None None None 2])).
  { cbn. repeat constructor; cbn; intuition discriminate. }
  split; [exact H|].
  apply (keys_stay_unique (env_at "alice" 100) (MSeverity "b2" "High") _
           "T" "D" None None None None H).
Defined.

(** X5: a report submitted under a key that is not yet in the table can be
    read back with [get_bug_details]: it has the given texts, status New,
    no severity, category, assignee or notes, and both times equal to the
    time of submission; every report that was there before reads as
    before. *)
Theorem submit_then_get_details (e : Env) (db : Table)
    (title description : string)
    (reproduction_steps log_context screenshot_data screenshot_name
       : option string) :
  Sql.fetchone e.(uuid_bug) db = None ->
  let db' := fst (submit_bug_report e db title description
                    reproduction_steps log_context screenshot_data
                    screenshot_name) in
  get_bug_details db' e.(uuid_bug)
  = Some (mkDetails e.(uuid_bug) title description reproduction_steps
            None None "New" None None None (Some e.(platform_info))
            log_context
            (if Py.truthy_opt screenshot_data
                && Py.truthy_opt screenshot_name
             then e.(screenshot_saved) else None)
            e.(now) e.(now))
  /\ forall id, id <> e.(uuid_bug) ->
       get_bug_details db' id = get_bug_details db id.
Proof.
  intros H. cbv zeta. unfold submit_bug_report. rewrite H. cbn [fst].
  unfold get_bug_details. split.
  - rewrite fetchone_app, H. unfold Sql.fetchone. cbn [find bug_id].
    rewrite String.eqb_refl. reflexivity.
  - intros id Hid. rewrite fetchone_app.
    destruct (Sql.fetchone id db); [reflexivity|].
    unfold Sql.fetchone. cbn [find bug_id].
    destruct (String.eqb (uuid_bug e) id) eqn:E; [|reflexivity].
    apply String.eqb_eq in E. congruence.
Qed.

(** X5 on a table of one older report. *)
Lemma submit_then_get_details_witness :
  let e := env_at "carol" 70 in
  let db := [sample_bug "b1" "Assigned" None (Some "alice") (Some 5) None 1] in
  Sql.fetchone e.(uuid_bug) db = None
  /\ option_map g_status
       (get_bug_details
          (fst (submit_bug_report e db "T" "D" None None None None))
          "uuid-bug") = Some "New"
  /\ option_map g_status
       (get_bug_details
          (fst (submit_bug_report e db "T" "D" None None None None)) "b1")
     = Some "Assigned".
Proof.
  cbv zeta. split; [reflexivity|].
  destruct (submit_then_get_details (env_at "carol" 70)
              [sample_bug "b1" "Assigned" None (Some "alice") (Some 5) None 1]
              "T" "D" None None None None eq_refl) as [H1 H2].
  split.
  - change "uuid-bug" with (uuid_bug (env_at "carol" 70)).
    rewrite H1. reflexivity.
  - rewrite H2; [reflexivity | discriminate].
Defined.

(** ** The open list and the views beside it *)

Lemma filter_nothing {A} (p : A -> bool) (l : list A) :
  (forall x, p x = false) -> filter p l = [].
Proof.
  intros H. induction l as [|x l IH]; cbn; [reflexivity|].
  now rewrite H.
Qed.

Lemma limit_nil {A} n : Sql.limit n (@nil A) = [].
Proof.
  unfold Sql.limit. destruct (n <? 0); [reflexivity | apply firstn_nil].
Qed.

Lemma limit_all {A} n (l : list A) :
  n < 0 \/ Z.of_nat (List.length l) <= n -> Sql.limit n l = l.
Proof.
  unfold Sql.limit. intros [H|H].
  - apply Z.ltb_lt in H. now rewrite H.
  - destruct (n <? 0); [reflexivity|]. apply firstn_all2. lia.
Qed.

Lemma limit_length {A} n (l : list A) :
  0 <= n -> (List.length (Sql.limit n l) <= Z.to_nat n)%nat.
Proof.
  intros H. unfold Sql.limit.
  destruct (n <? 0) eqn:E; [apply Z.ltb_lt in E; lia|].
  apply firstn_le_length.
Qed.

Lemma StronglySorted_firstn {A} (R : A -> A -> Prop) n :
  forall l, StronglySorted R l -> StronglySorted R (firstn n l).
Proof.
  induction n as [|n IH]; intros l H; [constructor|].
  destruct H as [|x l Hs Hall]; cbn [firstn]; [constructor|].
  constructor; [apply IH, Hs|].
  apply Forall_forall. intros y Hy.
  rewrite Forall_forall in Hall. apply Hall.
  rewrite <- (firstn_skipn n l). apply in_or_app. now left.
Qed.

Lemma StronglySorted_limit {A} (R : A -> A -> Prop) n l :
  StronglySorted R l -> StronglySorted R (Sql.limit n l).
Proof.
  unfold Sql.limit. destruct (n <? 0); [trivial|].
  apply StronglySorted_firstn.
Qed.

Lemma StronglySorted_map {A B} (f : A -> B) (R : B -> B -> Prop) l :
  StronglySorted (fun a b => R (f a) (f b)) l -> StronglySorted R (map f l).
Proof.
  induction 1 as [|x l _ IH Hall]; cbn [map]; constructor; [exact IH|].
  apply Forall_map. exact Hall.
Qed.

Lemma reported_desc_sorted l :
  StronglySorted (fun a b => reported_at b <= reported_at a)
    (Sql.order_by reported_desc l).
Proof.
  apply order_by_sorted.
  - intros a b H. now apply Z.leb_le.
  - intros a b H. apply Z.leb_gt in H. lia.
  - intros a b c. lia.
Qed.

(** X6: with a limit that SQLite can bind (a signed 64-bit number),
    asking the open list for status Resolved or Dismissed gives the empty
    list, whatever the table holds. *)
Theorem list_of_closed_status_is_empty (db : Table)
    (severity_filter : option string) (limit : Z) :
  Sql.int64 limit = true ->
  list_bug_reports db (Some "Resolved") severity_filter limit = []
  /\ list_bug_reports db (Some "Dismissed") severity_filter limit = [].
Proof.
  intros _.
  assert (N1 : none_word (Some "Resolved") = Some "Resolved")
    by reflexivity.
  assert (N2 : none_word (Some "Dismissed") = Some "Dismissed")
    by reflexivity.
  split; unfold list_bug_reports; cbv zeta; rewrite ?N1, ?N2;
    (rewrite filter_nothing; [cbn [Sql.order_by]; now rewrite limit_nil|]);
    intros r; unfold list_where, Sql.not_in2;
    cbn [Py.truthy_opt Py.truthy Py.show_opt];
    destruct (String.eqb (status r) "Dismissed") eqn:E1,
      (String.eqb (status r) "Resolved") eqn:E2; try reflexivity;
    apply String.eqb_eq in E1; apply String.eqb_eq in E2;
    rewrite E1 in E2; discriminate.
Qed.

(** X6 on a table that holds a resolved and a dismissed bug, with the
    default limit. *)
Lemma list_of_closed_status_is_empty_witness :
  let db := [sample_bug "b1" "Resolved" None None None None 1;
             sample_bug "b2" "Dismissed" (Some "High") None None None 2;
             sample_bug "b3" "New" None None None None 3] in
  Sql.int64 20 = true
  /\ list_bug_reports db (Some "Resolved") None 20 = []
  /\ list_bug_reports db (Some "Dismissed") None 20 = [].
Proof.
  cbv zeta. split; [reflexivity|].
  apply (list_of_closed_status_is_empty _ None 20). reflexivity.
Defined.

(** X7: with a limit that is not negative the open list has at most that
    many entries, and its entries come newest report first. *)
Theorem list_is_bounded_and_newest_first (db : Table)
    (status_filter severity_filter : option string) (limit : Z) :
  0 <= limit ->
  (List.length (list_bug_reports db status_filter severity_filter limit)
   <= Z.to_nat limit)%nat
  /\ StronglySorted (fun a b => o_reported_at b <= o_reported_at a)
       (list_bug_reports db status_filter severity_filter limit).
Proof.
  intros H. unfold list_bug_reports. split.
  - rewrite length_map. now apply limit_length.
  - apply StronglySorted_map. cbn [o_reported_at].
    apply StronglySorted_limit, reported_desc_sorted.
Qed.

(** X7 with three open bugs and a limit of two. *)
Lemma list_is_bounded_and_newest_first_witness :
  let db := [sample_bug "b1" "New" None None None None 1;
             sample_bug "b2" "Triaged" None None None None 3;
             sample_bug "b3" "Assigned" None None None None 2] in
  0 <= 2
  /\ map o_bug_id (list_bug_reports db None None 2) = ["b2"; "b3"]
  /\ (List.length (list_bug_reports db None None 2) <= 2)%nat.
Proof.
  cbv zeta. split; [lia|]. split; [vm_compute; reflexivity|].
  apply (list_is_bounded_and_newest_first _ None None 2). lia.
Defined.



(** X9: the cards of the management form are the bugs of the unfiltered
    open list, in the same order and under the same limit. *)
Theorem manage_form_shows_the_open_list (db : Table) (limit : Z) :
  map bug_id (manage_bug_reports db limit)
  = map o_bug_id (list_bug_reports db None None limit).
Proof.
  unfold manage_bug_reports, list_bug_reports. rewrite map_map.
  cbn [o_bug_id none_word]. f_equal. f_equal. f_equal.
  apply filter_ext. intros r. unfold list_where. cbn [Py.truthy_opt].
  now rewrite !andb_true_r.
Qed.

(** X10: the progress form shows exactly the bugs of the caller's to-do
    list, each once; only the order among bugs of one severity may
    differ. The card view shows the to-do list itself. *)
Theorem progress_form_shows_the_todo_list (e : Env) (db : Table) :
  Permutation (update_my_bug_progress e db) (my_assigned_bugs_table e db)
  /\ my_assigned_bugs_html e db = my_assigned_bugs_table e db
  /\ StronglySorted
       (fun a b => Sql.severity_rank (severity a)
                   <= Sql.severity_rank (severity b))
       (update_my_bug_progress e db).
Proof.
  split; [|split; [reflexivity|]].
  - unfold update_my_bug_progress, my_assigned_bugs_table.
    rewrite !order_by_perm. reflexivity.
  - apply order_by_sorted.
    + intros a b H. now apply Z.leb_le.
    + intros a b H. apply Z.leb_gt in H. lia.
    + intros a b c. lia.
Qed.

(** ** How the handlers compose *)

Lemma in_update_where_id id f db r' :
  In r' (Sql.update_where_id id f db) ->
  exists r, In r db
            /\ r' = (if String.eqb (bug_id r) id then f r else r).
Proof.
  unfold Sql.update_where_id. intros H. apply in_map_iff in H.
  destruct H as [r [Hr Hin]]. exists r. split; [exact Hin | now rewrite Hr].
Qed.

(** X11: after an assignment, the picker of unassigned bugs offers none of
    the ids that were assigned. *)
Theorem assigned_ids_leave_the_picker (e : Env) (db : Table) (ids : string) :
  Forall (fun r => existsb (String.eqb (bug_id r)) (bug_id_list ids) = false)
    (assign_bugs_interactive (fst (_assign_bugs_to_me e db ids))).
Proof.
  apply Forall_forall. intros r Hr. unfold assign_bugs_interactive in Hr.
  apply in_order_by, filter_In in Hr. destruct Hr as [Hin Hw].
  rewrite assign_table in Hin. apply in_map_iff in Hin.
  destruct Hin as [r0 [<- _]]. unfold assign_many in *.
  destruct (existsb (String.eqb (bug_id r0)) (bug_id_list ids)) eqn:E.
  - cbv in Hw. discriminate Hw.
  - exact E.
Qed.

(** X12: after an assignment, every bug that was in the table under one of
    the assigned ids is in the to-do list of the acting user. *)
Theorem assigned_bugs_enter_the_todo_list (e : Env) (db : Table)
    (ids : string) (r : BugReport) :
  In r db ->
  existsb (String.eqb (bug_id r)) (bug_id_list ids) = true ->
  In (assign_row e (acting_user e) r)
    (my_assigned_bugs_table e (fst (_assign_bugs_to_me e db ids))).
Proof.
  intros Hin Hid. unfold my_assigned_bugs_table.
  apply in_order_by, filter_In. split.
  - rewrite assign_table. apply in_map_iff. exists r. split; [|exact Hin].
    unfold assign_many. now rewrite Hid.
  - unfold mine_where. cbn [assigned_to status assign_row set_updated_at
      set_status set_assigned_at set_assigned_to Sql.col_eq].
    rewrite String.eqb_refl. reflexivity.
Qed.

(** X12 for a resolved bug of somebody else: it is taken over and shows up
    in the new owner's list. *)
Lemma assigned_bugs_enter_the_todo_list_witness :
  let e := env_at "alice" 100 in
  let r := sample_bug "b1" "Resolved" None (Some "bob") (Some 5) None 1 in
  In r [r]
  /\ existsb (String.eqb (bug_id r)) (bug_id_list " b1 ,") = true
  /\ In (assign_row e "alice" r)
       (my_assigned_bugs_table e (fst (_assign_bugs_to_me e [r] " b1 ,"))).
Proof.
  cbv zeta. split; [left; reflexivity|]. split; [reflexivity|].
  apply (assigned_bugs_enter_the_todo_list (env_at "alice" 100) _ " b1 ,"
           (sample_bug "b1" "Resolved" None (Some "bob") (Some 5) None 1)).
  - left; reflexivity.
  - reflexivity.
Defined.

Lemma resolved_rows e db id r' :
  In r' (fst (_resolve_bug e db id)) -> bug_id r' = id ->
  status r' = "Resolved".
Proof.
  unfold _resolve_bug. cbn [fst]. intros Hin Hid.
  apply in_update_where_id in Hin. destruct Hin as [r [_ ->]].
  destruct (String.eqb (bug_id r) id) eqn:E; [reflexivity|].
  apply String.eqb_neq in E. contradiction.
Qed.

(** X13: once a bug is resolved, its id is in none of the working views:
    the open list, the management form, anybody's to-do list and progress
    form, the picker, the tester queue and the team dashboard. *)
Theorem resolved_bug_leaves_the_working_views (e e' : Env) (db : Table)
    (id : string) (status_filter severity_filter : option string)
    (limit : Z) :
  let db' := fst (_resolve_bug e db id) in
  Forall (fun row => o_bug_id row <> id)
    (list_bug_reports db' status_filter severity_filter limit)
  /\ Forall (fun r => bug_id r <> id) (manage_bug_reports db' limit)
  /\ Forall (fun r => bug_id r <> id) (my_assigned_bugs_table e' db')
  /\ Forall (fun r => bug_id r <> id) (update_my_bug_progress e' db')
  /\ Forall (fun r => bug_id r <> id) (assign_bugs_interactive db')
  /\ Forall (fun r => bug_id r <> id) (bugs_ready_for_testing db')
  /\ Forall (fun r => bug_id r <> id) (dashboard_rows db').
Proof.
  cbv zeta.
  assert (K : forall r, In r (fst (_resolve_bug e db id)) ->
                        bug_id r = id -> status r = "Resolved")
    by (intros r; apply resolved_rows).
  repeat split; apply Forall_forall.
  - intros row Hin Hid. unfold list_bug_reports in Hin.
    apply in_map_iff in Hin. destruct Hin as [r [<- Hr]].
    cbn [o_bug_id] in Hid.
    apply in_limit, in_order_by, filter_In in Hr. destruct Hr as [Hr Hw].
    unfold list_where in Hw. rewrite (K r Hr Hid) in Hw.
    change (Sql.not_in2 "Dismissed" "Resolved" "Resolved") with false in Hw.
    discriminate Hw.
  - intros r Hr Hid. unfold manage_bug_reports in Hr.
    apply in_limit, in_order_by, filter_In in Hr. destruct Hr as [Hr Hw].
    cbv beta in Hw. rewrite (K r Hr Hid) in Hw. discriminate Hw.
  - intros r Hr Hid. unfold my_assigned_bugs_table in Hr.
    apply in_order_by, filter_In in Hr. destruct Hr as [Hr Hw].
    unfold mine_where in Hw. rewrite (K r Hr Hid) in Hw.
    rewrite andb_false_r in Hw. discriminate Hw.
  - intros r Hr Hid. unfold update_my_bug_progress in Hr.
    apply in_order_by, filter_In in Hr. destruct Hr as [Hr Hw].
    unfold mine_where in Hw. rewrite (K r Hr Hid) in Hw.
    rewrite andb_false_r in Hw. discriminate Hw.
  - intros r Hr Hid. unfold assign_bugs_interactive in Hr.
    apply in_order_by, filter_In in Hr. destruct Hr as [Hr Hw].
    unfold picker_where in Hw. rewrite (K r Hr Hid) in Hw.
    discriminate Hw.
  - intros r Hr Hid. unfold bugs_ready_for_testing in Hr.
    apply in_order_by, filter_In in Hr. destruct Hr as [Hr Hw].
    cbv beta in Hw. rewrite (K r Hr Hid) in Hw. discriminate Hw.
  - intros r Hr Hid. unfold dashboard_rows in Hr.
    apply in_order_by, filter_In in Hr. destruct Hr as [Hr Hw].
    unfold dashboard_where in Hw. rewrite (K r Hr Hid) in Hw.
    rewrite andb_false_r in Hw. discriminate Hw.
Qed.

Lemma in_fetchone id db r :
  Sql.fetchone id db = Some r -> In r db /\ bug_id r = id.
Proof.
  unfold Sql.fetchone. intros H. apply find_some in H.
  destruct H as [H1 H2]. split; [exact H1 | now apply String.eqb_eq].
Qed.

(** X14: for a bug that is in the table, marking it fixed puts it into the
    tester queue, and sending it back takes it out again. *)
Theorem fix_enters_and_send_back_leaves_the_queue (e e' : Env) (db : Table)
    (id fix_notes dev reason : string) (r : BugReport) :
  Sql.fetchone id db = Some r ->
  let fixed := fst (ai_fix_bug e db id fix_notes) in
  snd (ai_fix_bug e db id fix_notes) = FixSuccess id "Good-to-Test"
  /\ In id (map bug_id (bugs_ready_for_testing fixed))
  /\ Forall (fun x => bug_id x <> id)
       (bugs_ready_for_testing
          (fst (_send_bug_back_to_dev e' fixed id dev reason))).
Proof.
  intros H. cbv zeta. unfold ai_fix_bug. rewrite H. cbn [fst snd].
  split; [reflexivity|]. split.
  - set (f := fun x : BugReport =>
                set_updated_at (now e)
                  (set_progress_notes
                     (Some (Py.or_else (progress_notes r) ""
                            ++ note_block e "Fixed by"
                                 (Py.or_else (Py.or_opt (caller e) (client e))
                                    "AI") fix_notes))
                     (set_status "Good-to-Test" x))).
    assert (Hf : Sql.fetchone id (Sql.update_where_id id f db) = Some (f r))
      by (apply fetchone_update; [reflexivity | exact H]).
    apply in_fetchone in Hf. destruct Hf as [Hin Hid].
    apply in_map_iff. exists (f r). split; [exact Hid|].
    unfold bugs_ready_for_testing. apply in_order_by, filter_In.
    split; [exact Hin | reflexivity].
  - apply Forall_forall. intros x Hx Hid.
    unfold bugs_ready_for_testing in Hx.
    apply in_order_by, filter_In in Hx. destruct Hx as [Hx Hw].
    unfold _send_bug_back_to_dev in Hx. cbn [fst] in Hx.
    apply in_update_where_id in Hx. destruct Hx as [y [_ ->]].
    destruct (String.eqb (bug_id y) id) eqn:E; [discriminate Hw|].
    apply String.eqb_neq in E. contradiction.
Qed.

(** X14 on a bug in progress. *)
Lemma fix_enters_and_send_back_leaves_the_queue_witness :
  let e := env_at "ai-1" 60 in
  let e' := env_at "tess" 90 in
  let r := sample_bug "b1" "In Progress" None (Some "alice") (Some 5) None 1 in
  let fixed := fst (ai_fix_bug e [r] "b1" "patched") in
  Sql.fetchone "b1" [r] = Some r
  /\ snd (ai_fix_bug e [r] "b1" "patched") = FixSuccess "b1" "Good-to-Test"
  /\ In "b1" (map bug_id (bugs_ready_for_testing fixed))
  /\ Forall (fun x => bug_id x <> "b1")
       (bugs_ready_for_testing
          (fst (_send_bug_back_to_dev e' fixed "b1" "alice"
                  "still crashes"))).
Proof.
  cbv zeta. split; [reflexivity|].
  exact (fix_enters_and_send_back_leaves_the_queue
           (env_at "ai-1" 60) (env_at "tess" 90)
           [sample_bug "b1" "In Progress" None (Some "alice") (Some 5)
              None 1]
           "b1" "patched" "alice" "still crashes" _ eq_refl).
Defined.

(** X15: sending back a bug that is in the table leaves it with status
    Assigned and with the notes it had followed by a block that names the
    time, the tester and the reason; its assignee, severity and category
    are as before. *)
Theorem send_back_then_get_details (e : Env) (db : Table)
    (id dev reason : string) (r : BugReport) :
  Sql.fetchone id db = Some r ->
  exists d,
    get_bug_details (fst (_send_bug_back_to_dev e db id dev reason)) id
    = Some d
    /\ g_status d = "Assigned"
    /\ g_progress_notes d
       = Some (Py.or_else (progress_notes r) "" ++ nl ++ nl ++ "["
               ++ stamp e ++ "] Sent back by " ++ acting_user e ++ ":" ++ nl
               ++ reason)
    /\ g_assigned_to d = assigned_to r
    /\ g_severity d = severity r
    /\ g_category d = category r
    /\ g_updated_at d = now e.
Proof.
  intros H. unfold get_bug_details, _send_bug_back_to_dev, current_notes.
  rewrite H. cbn [fst].
  erewrite fetchone_update; [|reflexivity | exact H].
  eexists. split; [reflexivity|]. repeat split.
Qed.

(** X15 on the bug of the scenario: notes empty before, reason "still
    crashes", tester bob. *)
Lemma send_back_then_get_details_witness :
  let e := env_at "bob" 90 in
  let r := sample_bug "b2" "Good-to-Test" None (Some "alice") (Some 5)
             None 1 in
  Sql.fetchone "b2" [r] = Some r
  /\ exists d,
       get_bug_details
         (fst (_send_bug_back_to_dev e [r] "b2" "alice" "still crashes")) "b2"
       = Some d
       /\ g_status d = "Assigned"
       /\ g_assigned_to d = Some "alice".
Proof.
  cbv zeta. split; [reflexivity|].
  destruct (send_back_then_get_details (env_at "bob" 90)
              [sample_bug "b2" "Good-to-Test" None (Some "alice") (Some 5)
                 None 1]
              "b2" "alice" "still crashes" _ eq_refl)
    as [d [Hd [Hs [_ [Ha _]]]]].
  exists d. repeat split; assumption.
Defined.

(** ** The audit *)

Lemma length_append_string (a b : string) :
  String.length (a ++ b) = (String.length a + String.length b)%nat.
Proof. induction a as [|c a IH]; cbn; [reflexivity | now rewrite IH]. Qed.

Lemma length_take n : forall s, (String.length (Py.take n s) <= n)%nat.
Proof.
  induction n as [|n IH]; intros s; [cbn; lia|].
  destruct s as [|c s]; cbn; [lia|]. specialize (IH s). lia.
Qed.

Lemma audit_notes_length n : (String.length (audit_notes n) <= 103)%nat.
Proof.
  unfold audit_notes. destruct n as [s|]; [|cbn; lia].
  destruct (Py.truthy s) eqn:T; cbn [andb].
  - destruct (100 <? String.length s)%nat eqn:L.
    + rewrite length_append_string. pose proof (length_take 100 s).
      cbn [String.length]. lia.
    + cbn [Py.or_else]. rewrite T. apply Nat.ltb_ge in L. lia.
  - cbn [Py.or_else]. rewrite T. cbn. lia.
Qed.

Lemma audit_shown db limit :
  shown (audit_resolved_bugs db limit)
  = map (fun r =>
           mkAudit r.(bug_id) r.(title)
             (Py.or_else r.(severity) "Unset")
             (Py.or_else r.(category) "Uncategorized")
             (Py.or_else r.(assigned_to) "Unknown")
             r.(reported_at) r.(updated_at)
             (audit_notes r.(progress_notes)))
        (audit_rows db limit).
Proof.
  unfold audit_resolved_bugs. destruct (audit_rows db limit); reflexivity.
Qed.

Lemma updated_desc_sorted l :
  StronglySorted (fun a b => updated_at b <= updated_at a)
    (Sql.order_by updated_desc l).
Proof.
  apply order_by_sorted.
  - intros a b H. now apply Z.leb_le.
  - intros a b H. apply Z.leb_gt in H. lia.
  - intros a b c. lia.
Qed.

(** X16: every entry of the audit is a bug of the table whose status is
    Resolved, shown with its last update as the time of resolution and
    with notes of at most 103 characters; the entries come latest update
    first. *)
Theorem audit_lists_resolved_bugs_only (db : Table) (limit : Z) :
  Forall
    (fun a =>
       (String.length (au_notes a) <= 103)%nat
       /\ exists r, In r db /\ status r = "Resolved"
                    /\ bug_id r = au_bug_id a
                    /\ updated_at r = au_resolved a)
    (shown (audit_resolved_bugs db limit))
  /\ StronglySorted (fun a b => au_resolved b <= au_resolved a)
       (shown (audit_resolved_bugs db limit)).
Proof.
  rewrite audit_shown. split.
  - apply Forall_forall. intros a Ha. apply in_map_iff in Ha.
    destruct Ha as [r [<- Hr]]. cbn [au_notes au_bug_id au_resolved].
    split; [apply audit_notes_length|].
    unfold audit_rows in Hr.
    apply in_limit, in_order_by, filter_In in Hr. destruct Hr as [Hr Hw].
    exists r. repeat split; [exact Hr | now apply String.eqb_eq].
  - apply StronglySorted_map. cbn [au_resolved].
    apply StronglySorted_limit, updated_desc_sorted.
Qed.

(** X17: a bug of the table that is marked resolved is in the audit, with
    the time of that call as its time of resolution, provided the limit
    of the audit is one that SQLite can bind (a signed 64-bit number) and
    is negative or at least the size of the table. *)
Theorem resolve_then_audit (e : Env) (db : Table) (id : string) (limit : Z)
    (r : BugReport) :
  Sql.int64 limit = true ->
  limit < 0 \/ Z.of_nat (List.length db) <= limit ->
  In r db -> bug_id r = id ->
  exists a,
    In a (shown (audit_resolved_bugs (fst (_resolve_bug e db id)) limit))
    /\ au_bug_id a = id
    /\ au_resolved a = now e
    /\ au_title a = title r.
Proof.
  intros _ Hlim Hin Hid. rewrite audit_shown.
  set (r' := set_updated_at (now e) (set_status "Resolved" r)).
  eexists. split.
  - apply in_map_iff. exists r'. split; [reflexivity|].
    unfold audit_rows. rewrite limit_all.
    + apply in_order_by, filter_In. split; [|reflexivity].
      unfold _resolve_bug, Sql.update_where_id. cbn [fst].
      apply in_map_iff. exists r. split; [|exact Hin].
      subst id. now rewrite String.eqb_refl.
    + destruct Hlim as [Hlim|Hlim]; [now left | right].
      match goal with
      | |- Z.of_nat (List.length (Sql.order_by ?o (filter ?p ?l))) <= _ =>
          pose proof (Permutation_length (order_by_perm o (filter p l)));
          pose proof (filter_length_le p l);
          assert (List.length l = List.length db)
            by (unfold _resolve_bug, Sql.update_where_id; cbn [fst];
                apply length_map)
      end.
      lia.
  - cbn. repeat split. exact Hid.
Qed.

(** X17 on a bug that waits for the tester. *)
Lemma resolve_then_audit_witness :
  let e := env_at "tess" 90 in
  let r := sample_bug "b1" "Good-to-Test" None (Some "alice") (Some 5)
             None 1 in
  Sql.int64 (-1) = true
  /\ (-1 < 0 \/ Z.of_nat (List.length [r]) <= -1)
  /\ In r [r] /\ bug_id r = "b1"
  /\ exists a,
       In a (shown (audit_resolved_bugs (fst (_resolve_bug e [r] "b1")) (-1)))
       /\ au_bug_id a = "b1"
       /\ au_resolved a = 90
       /\ au_title a = "T".
Proof.
  cbv zeta. split; [reflexivity|]. split; [left; lia|].
  split; [left; reflexivity|]. split; [reflexivity|].
  apply (resolve_then_audit (env_at "tess" 90) _ "b1" (-1)
           (sample_bug "b1" "Good-to-Test" None (Some "alice") (Some 5)
              None 1)).
  - reflexivity.
  - left; lia.
  - left; reflexivity.
  - reflexivity.
Defined.

(** ** The bulk update *)

Lemma ai_loop_table_acc e ups :
  forall db acc acc',
    fst (ai_loop e ups db acc) = fst (ai_loop e ups db acc').
Proof.
  induction ups as [|u rest IH]; intros db acc acc'; cbn [ai_loop];
    [reflexivity|].
  destruct (Py.truthy_opt (a_bug_id u)); [|apply IH].
  destruct (ai_apply_one e _ u db) as [[db' new_applied] failure].
  apply IH.
Qed.

Lemma blank_to_null_truthy o :
  Py.truthy_opt o = true -> blank_to_null (Py.show_opt o) = o.
Proof.
  destruct o as [s|]; cbn; [|discriminate].
  unfold blank_to_null. now intros ->.
Qed.

(** X18: in the table, one update of the bulk handler does what the
    single-record handlers do when called for the fields it carries, in the
    order severity, category, status; the rest of the list then runs on the
    table so reached. *)
Theorem bulk_item_acts_like_the_single_handlers (e : Env) (db : Table)
    (id : string) (u : AiUpdate) (rest : list AiUpdate) :
  a_bug_id u = Some id -> Py.truthy id = true ->
  let db1 := if Py.truthy_opt (a_severity u)
             then fst (update_bug_severity e db id
                         (Py.show_opt (a_severity u)))
             else db in
  let db2 := if Py.truthy_opt (a_category u)
             then fst (update_bug_category e db1 id
                         (Py.show_opt (a_category u)))
             else db1 in
  let db3 := if Py.truthy_opt (a_status u)
             then fst (update_bug_status e db2 id (Py.show_opt (a_status u)))
             else db2 in
  fst (ai_manage_bugs e db (u :: rest)) = fst (ai_manage_bugs e db3 rest).
Proof.
  intros Hid Ht. cbv zeta. unfold ai_manage_bugs. cbn [ai_loop].
  rewrite Hid. cbn [Py.truthy_opt Py.show_opt]. rewrite Ht.
  unfold ai_apply_one, update_bug_severity, update_bug_category,
    update_bug_status.
  destruct (Py.truthy_opt (a_severity u)) eqn:E1,
    (Py.truthy_opt (a_category u)) eqn:E2,
    (Py.truthy_opt (a_status u)) eqn:E3; cbn [fst];
    rewrite ?(blank_to_null_truthy _ E1), ?(blank_to_null_truthy _ E2);
    apply ai_loop_table_acc.
Qed.

(** X18 on an update that sets severity and status of one bug. *)
Lemma bulk_item_acts_like_the_single_handlers_witness :
  let e := env_at "ai" 50 in
  let db := [sample_bug "b1" "New" None None None None 1] in
  let u := mkAiUpdate (Some "b1") (Some "High") None (Some "Triaged") None in
  a_bug_id u = Some "b1" /\ Py.truthy "b1" = true
  /\ fst (ai_manage_bugs e db [u])
     = fst (update_bug_status e
              (fst (update_bug_severity e db "b1" "High")) "b1" "Triaged").
Proof.
  cbv zeta. split; [reflexivity|]. split; [reflexivity|].
  exact (bulk_item_acts_like_the_single_handlers (env_at "ai" 50)
           [sample_bug "b1" "New" None None None None 1] "b1"
           (mkAiUpdate (Some "b1") (Some "High") None (Some "Triaged") None)
           [] eq_refl eq_refl).
Defined.

Lemma ai_apply_one_counts e id u db :
  List.length (snd (fst (ai_apply_one e id u db))) = fields_written u
  /\ (snd (ai_apply_one e id u db) = None
      <-> Py.truthy_opt (a_notes u) = false).
Proof.
  unfold ai_apply_one, fields_written.
  destruct (Py.truthy_opt (a_severity u)), (Py.truthy_opt (a_category u)),
    (Py.truthy_opt (a_status u)), (Py.truthy_opt (a_notes u));
    cbn; split; try reflexivity; split; intros; congruence.
Qed.

Lemma ai_loop_counts e ups :
  forall db acc,
    applied_count (snd (ai_loop e ups db acc))
    = (applied_count acc + list_sum (map item_applied ups))%nat
    /\ error_count (snd (ai_loop e ups db acc))
       = (error_count acc + List.length (filter item_failed ups))%nat.
Proof.
  unfold applied_count, error_count.
  induction ups as [|u rest IH]; intros db acc; cbn [ai_loop].
  - cbn. split; lia.
  - assert (S1 : list_sum (map item_applied (u :: rest))
                 = (item_applied u + list_sum (map item_applied rest))%nat)
      by reflexivity.
    assert (F1 : filter item_failed (u :: rest)
                 = if item_failed u then u :: filter item_failed rest
                   else filter item_failed rest) by reflexivity.
    rewrite S1, F1. clear S1 F1.
    set (SA := list_sum (map item_applied rest)) in *.
    set (FE := filter item_failed rest) in *.
    unfold item_applied, item_failed.
    destruct (Py.truthy_opt (a_bug_id u)); cbn [negb orb].
    + destruct (ai_apply_one_counts e (Py.show_opt (a_bug_id u)) u db)
        as [HL HF].
      destruct (ai_apply_one e _ u db) as [[db' new_applied] failure].
      cbn [fst snd] in HL, HF.
      destruct (IH db' (mkAiReport (applied acc ++ new_applied)%list
                          match failure with
                          | Some err => (errors acc ++ [err])%list
                          | None => errors acc
                          end)) as [IA IE].
      rewrite IA, IE. cbn [applied errors].
      rewrite length_app, HL. split; [lia|].
      destruct failure as [err|].
      * destruct (Py.truthy_opt (a_notes u)).
        -- rewrite length_app. cbn [List.length]. lia.
        -- destruct HF as [_ HF]. specialize (HF eq_refl). discriminate.
      * destruct HF as [HF _]. rewrite (HF eq_refl). lia.
    + destruct (IH db (mkAiReport (applied acc)
                         (errors acc ++ [MissingBugId u])%list)) as [IA IE].
      rewrite IA, IE. cbn [applied errors]. rewrite length_app.
      cbn [List.length]. split; lia.
Qed.

(** X19: the report of the bulk handler counts, as applied, every field
    among severity, category and status that carries a value in an update
    with a bug id, whether or not a bug has that id; it counts, as errors,
    the updates without a bug id and the updates that carry notes. *)
Theorem bulk_report_counts (e : Env) (db : Table) (updates : list AiUpdate) :
  applied_count (snd (ai_manage_bugs e db updates))
  = list_sum (map item_applied updates)
  /\ error_count (snd (ai_manage_bugs e db updates))
     = List.length (filter item_failed updates).
Proof.
  unfold ai_manage_bugs.
  destruct (ai_loop_counts e updates db (mkAiReport [] [])) as [HA HE].
  rewrite HA, HE. split; reflexivity.
Qed.

(** ** The assignment form *)

Lemma split_without_sep s :
  contains_char "," s = false -> Py.split "," s = [s].
Proof.
  induction s as [|c s IH]; cbn [contains_char Py.split]; [reflexivity|].
  intros H. apply orb_false_iff in H. destruct H as [Hc Hs].
  rewrite Hc, (IH Hs). reflexivity.
Qed.

Lemma split_at_sep s t :
  contains_char "," s = false ->
  Py.split "," (s ++ "," ++ t) = s :: Py.split "," t.
Proof.
  induction s as [|c s IH]; intros H.
  - reflexivity.
  - cbn [contains_char] in H. apply orb_false_iff in H.
    destruct H as [Hc Hs].
    change ((String c s ++ "," ++ t)%string)
      with (String c (s ++ "," ++ t)%string).
    cbn [Py.split]. rewrite Hc, (IH Hs). reflexivity.
Qed.

Lemma split_join ids :
  ids <> [] -> forallb clean_id ids = true ->
  Py.split "," (JsArray.join "," ids) = ids.
Proof.
  induction ids as [|x rest IH]; intros Hne Hall; [contradiction|].
  cbn [forallb] in Hall. apply andb_true_iff in Hall.
  destruct Hall as [Hx Hrest].
  assert (Hc : contains_char "," x = false).
  { unfold clean_id in Hx. apply andb_true_iff in Hx. destruct Hx as [Hx _].
    apply andb_true_iff in Hx. destruct Hx as [_ Hx].
    now apply negb_true_iff in Hx. }
  destruct rest as [|y rest'].
  - cbn [JsArray.join]. now apply split_without_sep.
  - change (JsArray.join "," (x :: y :: rest'))
      with (x ++ "," ++ JsArray.join "," (y :: rest'))%string.
    rewrite (split_at_sep _ _ Hc). f_equal.
    apply IH; [discriminate | exact Hrest].
Qed.

Lemma bug_id_list_of_clean ids :
  forallb clean_id ids = true ->
  map Py.strip (filter (fun b => Py.truthy (Py.strip b)) ids) = ids.
Proof.
  induction ids as [|x rest IH]; intros Hall; [reflexivity|].
  cbn [forallb] in Hall. apply andb_true_iff in Hall.
  destruct Hall as [Hx Hrest].
  unfold clean_id in Hx. apply andb_true_iff in Hx. destruct Hx as [Hx Hs].
  apply andb_true_iff in Hx. destruct Hx as [Ht _].
  apply String.eqb_eq in Hs.
  cbn [filter]. rewrite Hs, Ht. cbn [map]. rewrite Hs, (IH Hrest).
  reflexivity.
Qed.

Lemma assign_form_spec e db bugIds :
  bugIds <> [] -> forallb clean_id bugIds = true ->
  assign_form e db bugIds
  = (map (assign_many e (acting_user e) bugIds) db,
     Send (acting_user e, Z.of_nat (List.length bugIds))).
Proof.
  intros Hne Hall. unfold assign_form, assign_click.
  destruct bugIds as [|x rest] eqn:El; [contradiction|]. rewrite <- El in *.
  unfold _assign_bugs_to_me. rewrite assign_loop_spec.
  unfold bug_id_list.
  rewrite (split_join bugIds Hne Hall), (bug_id_list_of_clean bugIds Hall).
  reflexivity.
Qed.

(** X20: when the checked ids are not empty, have no comma and no white
    space around them, the form sends them in a text from which the
    handler reads back the same ids: the bugs with these ids are assigned,
    the others are not touched, and the count reported is the number of
    checked boxes. With no box checked the form calls nothing. *)
Theorem assign_form_assigns_the_checked_bugs (e : Env) (db : Table)
    (bugIds : list string) :
  bugIds <> [] -> forallb clean_id bugIds = true ->
  assign_form e db bugIds
  = (map (assign_many e (acting_user e) bugIds) db,
     Send (acting_user e, Z.of_nat (List.length bugIds)))
  /\ assign_form e db [] = (db, Alert "Please select at least one bug!").
Proof.
  intros Hne Hall. split; [|reflexivity].
  now apply assign_form_spec.
Qed.

(** X20 with two boxes checked out of three bugs. *)
Lemma assign_form_assigns_the_checked_bugs_witness :
  let e := env_at "alice" 100 in
  let db := [sample_bug "b1" "New" None None None None 1;
             sample_bug "b2" "New" None None None None 2;
             sample_bug "b3" "Triaged" None None None None 3] in
  ["b3"; "b1"] <> [] /\ forallb clean_id ["b3"; "b1"] = true
  /\ map status (fst (assign_form e db ["b3"; "b1"]))
     = ["Assigned"; "New"; "Assigned"]
  /\ snd (assign_form e db ["b3"; "b1"]) = Send ("alice", 2).
Proof.
  cbv zeta. split; [discriminate|]. split; [reflexivity|].
  destruct (assign_form_assigns_the_checked_bugs (env_at "alice" 100)
              [sample_bug "b1" "New" None None None None 1;
               sample_bug "b2" "New" None None None None 2;
               sample_bug "b3" "Triaged" None None None None 3]
              ["b3"; "b1"]) as [H _]; [discriminate | reflexivity |].
  rewrite H. split; reflexivity.
Defined.

(** ** The team dashboard *)

Lemma group_add_keys dev bug g d :
  In d (map fst (group_add dev bug g)) <-> d = dev \/ In d (map fst g).
Proof.
  induction g as [|[d0 bugs] rest IH]; cbn [group_add].
  - cbn. intuition congruence.
  - destruct (String.eqb d0 dev) eqn:E; cbn [map fst In].
    + apply String.eqb_eq in E. subst d0. intuition.
    + rewrite IH. intuition.
Qed.

Lemma group_add_nodup dev bug g :
  NoDup (map fst g) -> NoDup (map fst (group_add dev bug g)).
Proof.
  induction g as [|[d0 bugs] rest IH]; cbn [group_add]; intros H.
  - cbn. repeat constructor. intros [].
  - destruct (String.eqb d0 dev) eqn:E; cbn [map fst] in *; [exact H|].
    inversion H as [|? ? Hn Hr]; subst. constructor; [|apply IH, Hr].
    rewrite group_add_keys. intros [->|Hin]; [|contradiction].
    rewrite String.eqb_refl in E. discriminate.
Qed.

Lemma group_add_size dev bug g :
  list_sum (map (fun x => List.length (snd x)) (group_add dev bug g))
  = S (list_sum (map (fun x : string * list DevBug => List.length (snd x)) g)).
Proof.
  induction g as [|[d0 bugs] rest IH]; cbn [group_add]; [reflexivity|].
  destruct (String.eqb d0 dev); cbn [map list_sum fold_right snd].
  - rewrite length_app. cbn [List.length]. unfold list_sum. lia.
  - unfold list_sum in IH. rewrite IH. lia.
Qed.

Lemma group_add_nonempty dev bug g :
  Forall (fun x : string * list DevBug => snd x <> []) g ->
  Forall (fun x : string * list DevBug => snd x <> []) (group_add dev bug g).
Proof.
  induction g as [|[d0 bugs] rest IH]; cbn [group_add]; intros H.
  - constructor; [discriminate | constructor].
  - inversion H; subst.
    destruct (String.eqb d0 dev); constructor; auto.
    cbn. destruct bugs; discriminate.
Qed.

Lemma bugs_of_group_add d dev bug g :
  bugs_of d (group_add dev bug g)
  = (bugs_of d g ++ (if String.eqb d dev then [bug] else []))%list.
Proof.
  induction g as [|[d0 bugs] rest IH]; cbn [group_add bugs_of].
  - rewrite (String.eqb_sym dev d). destruct (String.eqb d dev); reflexivity.
  - destruct (String.eqb d0 dev) eqn:E; cbn [bugs_of].
    + apply String.eqb_eq in E. subst d0. rewrite (String.eqb_sym dev d).
      destruct (String.eqb d dev); [reflexivity | now rewrite app_nil_r].
    + destruct (String.eqb d0 d) eqn:E2; [|exact IH].
      apply String.eqb_eq in E2. subst d0. rewrite E.
      now rewrite app_nil_r.
Qed.

Lemma bugs_of_entry d bugs g :
  NoDup (map fst g) -> In (d, bugs) g -> bugs_of d g = bugs.
Proof.
  induction g as [|[d0 b0] rest IH]; cbn [map fst bugs_of]; intros Hn Hin;
    [contradiction|].
  inversion Hn as [|? ? Hnot Hr]; subst.
  destruct Hin as [Heq|Hin].
  - injection Heq as -> ->. now rewrite String.eqb_refl.
  - destruct (String.eqb d0 d) eqn:E; [|apply IH; assumption].
    apply String.eqb_eq in E. subst d0. exfalso. apply Hnot.
    apply in_map_iff. exists (d, bugs). split; [reflexivity | exact Hin].
Qed.

Lemma group_fold rows :
  forall acc,
    let g := fold_left
               (fun dev_bugs r =>
                  group_add (Py.show_opt (assigned_to r)) (dev_bug r)
                    dev_bugs)
               rows acc in
    (NoDup (map fst acc) -> NoDup (map fst g))
    /\ list_sum (map (fun x => List.length (snd x)) g)
       = (list_sum
            (map (fun x : string * list DevBug => List.length (snd x)) acc)
          + List.length rows)%nat
    /\ (Forall (fun x : string * list DevBug => snd x <> []) acc ->
        Forall (fun x : string * list DevBug => snd x <> []) g)
    /\ forall d,
         bugs_of d g
         = (bugs_of d acc
            ++ map dev_bug
                 (filter
                    (fun r => String.eqb d (Py.show_opt (assigned_to r)))
                    rows))%list.
Proof.
  induction rows as [|r rows IH]; intros acc; cbn [fold_left].
  - cbv zeta. split; [trivial|]. split; [|split; [trivial|]].
    + cbn [List.length]. now rewrite Nat.add_0_r.
    + intros d. cbn. now rewrite app_nil_r.
  - specialize (IH (group_add (Py.show_opt (assigned_to r)) (dev_bug r) acc)).
    cbv zeta in *. destruct IH as [I1 [I2 [I3 I4]]].
    repeat split.
    + intros H. apply I1, group_add_nodup, H.
    + rewrite I2, group_add_size. cbn [List.length]. lia.
    + intros H. apply I3, group_add_nonempty, H.
    + intros d. rewrite I4, bugs_of_group_add. cbn [filter].
      destruct (String.eqb d (Py.show_opt (assigned_to r)));
        cbn [map]; rewrite <- app_assoc; reflexivity.
Qed.

Lemma dashboard_groups db :
  snd (team_bug_dashboard db) = group_rows (dashboard_rows db).
Proof.
  unfold team_bug_dashboard. destruct (dashboard_rows db); reflexivity.
Qed.

(** X21: the dashboard groups the assigned, unfinished bugs by developer:
    each developer with at least one such bug has one group, which holds
    that developer's bugs and no others, in the order of the query; no
    developer has two groups and no group is empty. *)
Theorem dashboard_groups_by_developer (db : Table) :
  let dev_bugs := snd (team_bug_dashboard db) in
  NoDup (map fst dev_bugs)
  /\ Forall
       (fun g =>
          snd g <> []
          /\ snd g
             = map dev_bug
                 (filter
                    (fun r => String.eqb (fst g)
                                (Py.show_opt (assigned_to r)))
                    (dashboard_rows db)))
       dev_bugs
  /\ forall r, In r (dashboard_rows db) ->
       In (Py.show_opt (assigned_to r)) (map fst dev_bugs).
Proof.
  cbv zeta. rewrite dashboard_groups. unfold group_rows.
  destruct (group_fold (dashboard_rows db) []) as [H1 [_ [H3 H4]]].
  cbv zeta in *.
  assert (Hn : NoDup (map fst
                        (fold_left
                           (fun dev_bugs r =>
                              group_add (Py.show_opt (assigned_to r))
                                (dev_bug r) dev_bugs)
                           (dashboard_rows db) [])))
    by (apply H1; constructor).
  split; [exact Hn|]. split.
  - apply Forall_forall. intros [d bugs] Hin. cbn [fst snd]. split.
    + specialize (H3 (Forall_nil _)). rewrite Forall_forall in H3.
      exact (H3 _ Hin).
    + rewrite <- (bugs_of_entry d bugs _ Hn Hin). rewrite H4. reflexivity.
  - intros r Hr.
    set (d := Py.show_opt (assigned_to r)).
    assert (Hb : In (dev_bug r)
                   (bugs_of d
                      (fold_left
                         (fun dev_bugs r0 =>
                            group_add (Py.show_opt (assigned_to r0))
                              (dev_bug r0) dev_bugs)
                         (dashboard_rows db) []))).
    { rewrite H4. cbn [bugs_of app]. apply in_map, filter_In.
      split; [exact Hr | apply String.eqb_refl]. }
    revert Hb. generalize (fold_left
                             (fun dev_bugs r0 =>
                                group_add (Py.show_opt (assigned_to r0))
                                  (dev_bug r0) dev_bugs)
                             (dashboard_rows db) []).
    intros g. induction g as [|[d0 b0] rest IH]; cbn [bugs_of map fst In];
      [tauto|].
    destruct (String.eqb d0 d) eqn:E.
    + apply String.eqb_eq in E. now left.
    + intros Hb. right. apply IH, Hb.
Qed.

Lemma count_disjoint3 {A} (p q s : A -> bool) (l : list A) :
  (forall x, p x && q x = false) -> (forall x, p x && s x = false) ->
  (forall x, q x && s x = false) ->
  (List.length (filter p l) + List.length (filter q l)
   + List.length (filter s l) <= List.length l)%nat.
Proof.
  intros Hpq Hps Hqs. induction l as [|x l IH]; cbn [filter List.length];
    [lia|].
  specialize (Hpq x). specialize (Hps x). specialize (Hqs x).
  destruct (p x), (q x), (s x); cbn [List.length] in *;
    try discriminate; lia.
Qed.

Lemma eqb_two_values (x a b : string) :
  a <> b -> String.eqb x a && String.eqb x b = false.
Proof.
  intros Hab. destruct (String.eqb x a) eqn:E1; [|reflexivity].
  destruct (String.eqb x b) eqn:E2; [|reflexivity].
  apply String.eqb_eq in E1. apply String.eqb_eq in E2. congruence.
Qed.

(** X22: the summary table has one line per group, in the order of the
    groups; the totals of its lines add up to the number of bugs the
    dashboard query returned; on each line the counts by status together,
    and the counts Critical and High together, do not exceed the total. *)
Theorem dashboard_summary_counts (db : Table) :
  let summary := shown (fst (team_bug_dashboard db)) in
  map developer summary = map fst (snd (team_bug_dashboard db))
  /\ list_sum (map total_bugs summary) = List.length (dashboard_rows db)
  /\ Forall
       (fun s =>
          (n_assigned s + n_in_progress s + n_good_to_test s
           <= total_bugs s)%nat
          /\ (n_critical s + n_high s <= total_bugs s)%nat)
       summary.
Proof.
  cbv zeta.
  assert (Hs : shown (fst (team_bug_dashboard db))
               = map summarize (group_rows (dashboard_rows db))).
  { unfold team_bug_dashboard. destruct (dashboard_rows db); reflexivity. }
  rewrite Hs, dashboard_groups. repeat split.
  - rewrite map_map. apply map_ext. intros [d bugs]. reflexivity.
  - rewrite map_map.
    destruct (group_fold (dashboard_rows db) []) as [_ [H2 _]].
    cbv zeta in H2. unfold group_rows.
    erewrite map_ext; [rewrite H2; reflexivity|].
    intros [d bugs]. reflexivity.
  - apply Forall_forall. intros s Hin. apply in_map_iff in Hin.
    destruct Hin as [[d bugs] [<- _]].
    cbn [summarize n_assigned n_in_progress n_good_to_test total_bugs
         n_critical n_high]. unfold count_where. split.
    + apply count_disjoint3; intros x; apply eqb_two_values; discriminate.
    + pose proof (count_disjoint3
                    (fun b => String.eqb (v_severity b) "Critical")
                    (fun b => String.eqb (v_severity b) "High")
                    (fun _ => false) bugs) as H.
      rewrite (filter_nothing (fun _ => false)) in H; [|reflexivity].
      cbn [List.length] in H. rewrite Nat.add_0_r in H. apply H.
      * intros x. apply eqb_two_values. discriminate.
      * intros x. apply andb_false_r.
      * intros x. apply andb_false_r.
Qed.

(** ** Triage, the picker and the progress form *)

Lemma picker_ids_after_rowwise (g : BugReport -> BugReport) db :
  (forall r, bug_id (g r) = bug_id r) ->
  (forall r, picker_where (g r) = picker_where r) ->
  map bug_id (filter picker_where (map g db))
  = map bug_id (filter picker_where db).
Proof.
  intros Hid Hw. induction db as [|r db IH]; [reflexivity|].
  cbn [map filter]. rewrite Hw.
  destruct (picker_where r); cbn [map]; now rewrite ?Hid, IH.
Qed.

(** X23: setting the severity or the category of a bug changes no status,
    so the bug is not moved to Triaged and the picker offers the same bugs
    as before, possibly in another order. *)
Theorem triage_keeps_status_and_picker (e : Env) (db : Table)
    (id v : string) :
  map status (fst (update_bug_severity e db id v)) = map status db
  /\ map status (fst (update_bug_category e db id v)) = map status db
  /\ Permutation
       (map bug_id
          (assign_bugs_interactive (fst (update_bug_severity e db id v))))
       (map bug_id (assign_bugs_interactive db))
  /\ Permutation
       (map bug_id
          (assign_bugs_interactive (fst (update_bug_category e db id v))))
       (map bug_id (assign_bugs_interactive db)).
Proof.
  unfold update_bug_severity, update_bug_category, Sql.update_where_id.
  cbn [fst]. repeat split.
  - rewrite map_map. apply map_ext. intros r.
    destruct (String.eqb (bug_id r) id); reflexivity.
  - rewrite map_map. apply map_ext. intros r.
    destruct (String.eqb (bug_id r) id); reflexivity.
  - unfold assign_bugs_interactive. rewrite !order_by_perm.
    rewrite picker_ids_after_rowwise; [reflexivity| |];
      intros r; destruct (String.eqb (bug_id r) id); reflexivity.
  - unfold assign_bugs_interactive. rewrite !order_by_perm.
    rewrite picker_ids_after_rowwise; [reflexivity| |];
      intros r; destruct (String.eqb (bug_id r) id); reflexivity.
Qed.

(** X24: when the checked values that the form sends are ids that pass
    unchanged through the join and the split, and every id the picker
    offers is among them, the picker is empty after the assignment. The
    statement starts from the values sent; it says nothing about how a
    page turns an id into the value of a check box. *)
Theorem assigning_all_offered_empties_the_picker (e : Env) (db : Table)
    (bugIds : list string) :
  forallb clean_id bugIds = true ->
  (forall r, In r (assign_bugs_interactive db) -> In (bug_id r) bugIds) ->
  assign_bugs_interactive (fst (assign_form e db bugIds)) = [].
Proof.
  intros Hclean Hall.
  destruct bugIds as [|x rest] eqn:El.
  - cbn [assign_form assign_click fst].
    destruct (assign_bugs_interactive db) as [|r l] eqn:Ep; [reflexivity|].
    exfalso. apply (Hall r). now left.
  - rewrite <- El in *. rewrite assign_form_spec;
      [|rewrite El; discriminate | exact Hclean].
    cbn [fst].
    destruct (assign_bugs_interactive (map _ db)) as [|r l] eqn:Ep;
      [reflexivity|].
    exfalso.
    assert (Hin : In r (assign_bugs_interactive
                          (map (assign_many e (acting_user e) bugIds) db)))
      by (rewrite Ep; now left).
    unfold assign_bugs_interactive in Hin at 1.
    apply in_order_by, filter_In in Hin. destruct Hin as [Hin Hw].
    apply in_map_iff in Hin. destruct Hin as [r0 [<- Hr0]].
    unfold assign_many in Hw.
    destruct (existsb (String.eqb (bug_id r0)) bugIds) eqn:E.
    + cbv in Hw. discriminate Hw.
    + assert (Hid : In (bug_id r0) bugIds).
      { apply Hall. unfold assign_bugs_interactive.
        apply in_order_by, filter_In. split; assumption. }
      assert (Hex : existsb (String.eqb (bug_id r0)) bugIds = true).
      { apply existsb_exists. exists (bug_id r0).
        split; [exact Hid | apply String.eqb_refl]. }
      congruence.
Qed.

(** X24 on a table with two bugs to pick and one that is taken; the
    values sent are the two offered ids and one id that no row has. *)
Lemma assigning_all_offered_empties_the_picker_witness :
  let e := env_at "alice" 100 in
  let db := [sample_bug "b1" "New" None None None None 1;
             sample_bug "b2" "In Progress" None (Some "bob") (Some 5) None 2;
             sample_bug "b3" "Triaged" (Some "High") None None None 3] in
  let bugIds := ["b3"; "b9"; "b1"] in
  forallb clean_id bugIds = true
  /\ (forall r, In r (assign_bugs_interactive db) -> In (bug_id r) bugIds)
  /\ assign_bugs_interactive (fst (assign_form e db bugIds)) = [].
Proof.
  cbv zeta.
  assert (H : forall r,
             In r (assign_bugs_interactive
                     [sample_bug "b1" "New" None None None None 1;
                      sample_bug "b2" "In Progress" None (Some "bob")
                        (Some 5) None 2;
                      sample_bug "b3" "Triaged" (Some "High") None None
                        None 3]) ->
             In (bug_id r) ["b3"; "b9"; "b1"]).
  { intros r [<-|[<-|[]]]; cbn; tauto. }
  split; [reflexivity|]. split; [exact H|].
  exact (assigning_all_offered_empties_the_picker (env_at "alice" 100) _
           ["b3"; "b9"; "b1"] eq_refl H).
Defined.

Lemma progress_many_effect e ups :
  forall r,
    assigned_to (progress_many e ups r) = assigned_to r
    /\ (status (progress_many e ups r) = status r
        \/ exists u, In u ups /\ status (progress_many e ups r) = p_status u).
Proof.
  unfold progress_many.
  induction ups as [|u rest IH]; intros r; cbn [fold_left].
  - split; [reflexivity | now left].
  - destruct (String.eqb (bug_id r) (p_bug_id u)).
    + destruct (IH (progress_row e u r)) as [Ha [Hs|[u' [Hu Hs]]]].
      * split; [exact Ha|]. right. exists u. split; [now left | exact Hs].
      * split; [exact Ha|]. right. exists u'. split; [now right | exact Hs].
    + destruct (IH r) as [Ha [Hs|[u' [Hu Hs]]]].
      * split; [exact Ha | now left].
      * split; [exact Ha|]. right. exists u'. split; [now right | exact Hs].
Qed.

(** X25: a progress save whose statuses are among the three values of the
    form's status box takes no bug off anybody's to-do list. *)
Theorem progress_save_keeps_the_todo_list (e e' : Env) (db : Table)
    (ups : list ProgressUpdate) (r : BugReport) :
  Forall (fun u => In (p_status u) progress_options) ups ->
  In r (my_assigned_bugs_table e' db) ->
  In (bug_id r)
    (map bug_id
       (my_assigned_bugs_table e' (fst (_save_bug_progress e db ups)))).
Proof.
  intros Hopt Hin. unfold my_assigned_bugs_table in *.
  apply in_order_by, filter_In in Hin. destruct Hin as [Hin Hw].
  cbn [_save_bug_progress fst]. rewrite save_loop_spec.
  apply in_map_iff. exists (progress_many e ups r).
  split; [apply bug_id_progress_many|].
  apply in_order_by, filter_In. split; [now apply in_map|].
  destruct (progress_many_effect e ups r) as [Ha Hs].
  unfold mine_where in *. rewrite Ha.
  apply andb_true_iff in Hw. destruct Hw as [Hw1 Hw2].
  rewrite Hw1. cbn [andb].
  destruct Hs as [Hs|[u [Hu Hs]]]; rewrite Hs; [exact Hw2|].
  rewrite Forall_forall in Hopt. specialize (Hopt u Hu).
  unfold progress_options in Hopt. cbn [In] in Hopt.
  destruct Hopt as [<-|[<-|[<-|[]]]]; reflexivity.
Qed.

(** X25 on a save that moves alice's bug to Good-to-Test. *)
Lemma progress_save_keeps_the_todo_list_witness :
  let e := env_at "alice" 100 in
  let r := sample_bug "b1" "Assigned" None (Some "alice") (Some 5) None 1 in
  let ups := [mkProgress "b1" "Good-to-Test" (Some "done")] in
  Forall (fun u => In (p_status u) progress_options) ups
  /\ In r (my_assigned_bugs_table e [r])
  /\ In "b1"
       (map bug_id
          (my_assigned_bugs_table e (fst (_save_bug_progress e [r] ups)))).
Proof.
  cbv zeta.
  assert (H1 : Forall (fun u => In (p_status u) progress_options)
                 [mkProgress "b1" "Good-to-Test" (Some "done")]).
  { constructor; [|constructor]. cbn. tauto. }
  assert (H2 : In (sample_bug "b1" "Assigned" None (Some "alice") (Some 5)
                     None 1)
                 (my_assigned_bugs_table (env_at "alice" 100)
                    [sample_bug "b1" "Assigned" None (Some "alice") (Some 5)
                       None 1])).
  { left; reflexivity. }
  split; [exact H1|]. split; [exact H2|].
  exact (progress_save_keeps_the_todo_list (env_at "alice" 100)
           (env_at "alice" 100) _ _ _ H1 H2).
Defined.
